(** * USBCameraModule: the device-camera bridge

    A shallow embedding of [com.gemdetect.USBCameraModule], the React Native
    native module that enumerates cameras through the Camera2 service, opens
    one of them, streams a preview into an [ImageReader], captures stills and
    tears the session down.

    The Java class keeps its session in mutable fields and talks to the
    platform through calls that may throw and through callbacks the platform
    invokes later.  Here:

    - the fields are a record [USBCameraModule], part of a [World] that also
      holds the chronological log of everything the module did to the
      outside ([Effect]: events sent to the host, promise settlements, calls
      on platform objects);
    - a method body is a computation [Java A := World -> Completion A] that
      either completes normally or abruptly with a [Throwable]; [try_catch]
      is Java's [try { } catch (T e) { }];
    - platform objects are identities ([nat]); what the platform answers to a
      query is read from an explicit [Platform] record, so every theorem
      quantifies over all platforms;
    - each callback the module registers is a function of what it captured
      ([cameraId], [promise]) and of what the platform passes to it;
    - a Camera2 call declared [throws CameraAccessException] either returns,
      or throws that exception, or throws an unchecked one
      ([IllegalArgumentException], [IllegalStateException], ...), as the
      platform decides; [ImageReader.newInstance] returns or throws
      [IllegalArgumentException]; [Thread.join] returns or is interrupted;
      [close], [quitSafely] and the event emitter return; dereferencing a
      field that is null throws [NullPointerException].

    [Log.d]/[Log.e]/[Log.w] calls write to the system log only and are left
    out. *)

From Stdlib Require Import ZArith List String Bool Arith Lia.
From Stdlib Require Import DecimalString.
Import ListNotations.

Local Open Scope string_scope.
Local Open Scope list_scope.

Set Implicit Arguments.
Set Warnings "-register-all".

(* ================================================================= *)
(** ** Bridge values: [WritableMap] and [WritableArray] *)

(** What crosses the React Native bridge.  A [WritableMap] is kept as the
    list of its entries in insertion order; the module never puts the same
    key twice in one map. *)
Inductive Value : Type :=
| VString (s : string)
| VBoolean (b : bool)
| VInt (n : Z)
| VArray (items : list Value)
| VMap (entries : list (string * Value)).

Definition WritableMap := list (string * Value).
Definition WritableArray := list Value.

Definition createMap : WritableMap := [].
Definition createArray : WritableArray := [].

Definition putString (k v : string) (m : WritableMap) : WritableMap :=
  m ++ [(k, VString v)].
Definition putBoolean (k : string) (v : bool) (m : WritableMap) : WritableMap :=
  m ++ [(k, VBoolean v)].
Definition putInt (k : string) (v : Z) (m : WritableMap) : WritableMap :=
  m ++ [(k, VInt v)].
Definition putArray (k : string) (v : WritableArray) (m : WritableMap)
  : WritableMap :=
  m ++ [(k, VArray v)].
Definition pushMap (m : WritableMap) (a : WritableArray) : WritableArray :=
  a ++ [VMap m].

Fixpoint getKey (k : string) (m : WritableMap) : option Value :=
  match m with
  | [] => None
  | (k', v) :: rest => if String.eqb k k' then Some v else getKey k rest
  end.

(* ================================================================= *)
(** ** Platform objects *)

Definition Promise := nat.

Inductive CameraDevice := Device (handle : nat).
Inductive CameraCaptureSession := Session (handle : nat).
Inductive ImageReader := Reader (handle : nat).
Inductive HandlerThread := Thread (handle : nat).
Inductive Handler := HandlerOf (looper : HandlerThread).

Record Size := mkSize { getWidth : Z; getHeight : Z }.

(** [map.getOutputSizes(ImageFormat.JPEG)]: an array, or null. *)
Record StreamConfigurationMap := mkStreamMap {
  getOutputSizes : option (list Size)
}.

(** The two keys the module reads; either may be absent (null). *)
Record CameraCharacteristics := mkCharacteristics {
  LENS_FACING : option Z;
  SCALER_STREAM_CONFIGURATION_MAP : option StreamConfigurationMap
}.

(** A frame handed out by [ImageReader.acquireLatestImage]:
    [getPlanes()[0].getBuffer()] read to the end. *)
Record Image := mkImage { imageHandle : nat; planeBytes : list Z }.

(** Result of a platform call declared [throws CameraAccessException]: it
    returns, throws that checked exception, or throws an unchecked exception
    of the class named, such as the [IllegalArgumentException] of
    [getCameraCharacteristics] for a camera the service no longer knows or
    the [IllegalStateException] of [capture] on a session that is no longer
    active. *)
Inductive Checked (A : Type) : Type :=
| Returns (a : A)
| ThrowsCameraAccess (msg : string)
| ThrowsUnchecked (className msg : string).
Arguments Returns {A} a.
Arguments ThrowsCameraAccess {A} msg.
Arguments ThrowsUnchecked {A} className msg.

Inductive Throwable :=
| CameraAccessException (msg : string)
| InterruptedException
| NullPointerException
| UncheckedException (className msg : string).

(** The camera service as the module uses it. *)
Record CameraManager := mkManager {
  getCameraIdList : Checked (list string);
  getCameraCharacteristics : string -> Checked CameraCharacteristics;
  (** [openCamera(id, callback, handler)] accepts the request or throws. *)
  openCameraRequest : string -> Checked unit
}.

(** The values of [CameraCharacteristics.LENS_FACING_FRONT], [_BACK] and
    [_EXTERNAL].  They are constants of the Android SDK, not of this
    repository, so they are taken as given by the platform. *)
Record LensFacingConstants := mkLensFacing {
  LENS_FACING_FRONT : Z;
  LENS_FACING_BACK : Z;
  LENS_FACING_EXTERNAL : Z
}.

(** The [case] labels of a Java [switch] are pairwise different. *)
Definition distinctLabels (K : LensFacingConstants) : Prop :=
  LENS_FACING_FRONT K <> LENS_FACING_BACK K /\
  LENS_FACING_FRONT K <> LENS_FACING_EXTERNAL K /\
  LENS_FACING_BACK K <> LENS_FACING_EXTERNAL K.

Inductive Template := TEMPLATE_PREVIEW | TEMPLATE_STILL_CAPTURE.

(** Everything else the module asks of the platform. *)
Record Platform := mkPlatform {
  lensFacing : LensFacingConstants;
  (** [reactContext.getSystemService(Context.CAMERA_SERVICE)], null when the
      service is not there. *)
  getSystemService : option CameraManager;
  (** [ActivityCompat.checkSelfPermission(.., CAMERA) == PERMISSION_GRANTED] *)
  cameraPermissionGranted : bool;
  createCaptureSessionRequest : CameraDevice -> Checked unit;
  createCaptureRequest : CameraDevice -> Template -> Checked unit;
  setRepeatingRequestCall : CameraCaptureSession -> Checked unit;
  captureCall : CameraCaptureSession -> Checked unit;
  (** whether [backgroundThread.join()] is interrupted *)
  joinInterrupted : HandlerThread -> bool;
  (** [android.util.Base64.encodeToString(bytes, Base64.DEFAULT)] *)
  base64EncodeToString : list Z -> string;
  (** [ImageReader.newInstance(width, height, ImageFormat.JPEG, 1)]: the
      message of the [IllegalArgumentException] it throws, if it throws (it
      does for a width or height below 1). *)
  newInstanceThrows : Z -> Z -> option string;
  (** [e.getMessage()] of an exception the runtime creates itself *)
  runtimeMessage : Throwable -> string
}.

(* ================================================================= *)
(** ** The module, its effects, and Java completions *)

(** What the module does to the outside, in program order. *)
Inductive Effect : Type :=
| Emit (eventName : string) (params : WritableMap)
| PromiseResolve (p : Promise) (v : Value)
| PromiseReject (p : Promise) (code message : string)
| ThreadStart (t : HandlerThread)
| ThreadQuitSafely (t : HandlerThread)
| ThreadJoined (t : HandlerThread)
| OpenCameraRequested (cameraId : string) (p : Promise) (h : option Handler)
| DeviceClose (d : CameraDevice)
| ReaderNew (r : ImageReader) (width height : Z)
| ReaderListenerSet (r : ImageReader) (h : option Handler)
| ReaderClose (r : ImageReader)
| CaptureSessionRequested (d : CameraDevice) (r : ImageReader) (p : Promise)
                          (h : option Handler)
| RepeatingRequestSet (s : CameraCaptureSession) (r : ImageReader)
| CaptureSubmitted (s : CameraCaptureSession) (r : ImageReader)
| SessionClose (s : CameraCaptureSession)
| ImageClose (i : Image).

(** The mutable fields of [USBCameraModule]. *)
Record USBCameraModule := mkFields {
  cameraManager : option CameraManager;
  cameraDevice : option CameraDevice;
  captureSession : option CameraCaptureSession;
  imageReader : option ImageReader;
  backgroundThread : option HandlerThread;
  backgroundHandler : option Handler
}.

Record World := mkWorld {
  platform : Platform;
  fields : USBCameraModule;
  (** identity of the next object created with [new] *)
  nextObject : nat;
  trace : list Effect
}.

(** [e.getMessage()] inside a string concatenation. *)
Definition getMessage (pf : Platform) (e : Throwable) : string :=
  match e with
  | CameraAccessException msg => msg
  | UncheckedException _ msg => msg
  | InterruptedException | NullPointerException => runtimeMessage pf e
  end.

Inductive Completion (A : Type) : Type :=
| Normal (a : A) (w : World)
| Abrupt (e : Throwable) (w : World).
Arguments Normal {A} a w.
Arguments Abrupt {A} e w.

Definition Java (A : Type) := World -> Completion A.

Definition ret {A} (a : A) : Java A := fun w => Normal a w.
Definition throw {A} (e : Throwable) : Java A := fun w => Abrupt e w.
Definition bind {A B} (m : Java A) (k : A -> Java B) : Java B :=
  fun w => match m w with
           | Normal a w' => k a w'
           | Abrupt e w' => Abrupt e w'
           end.

Declare Scope java_scope.
Delimit Scope java_scope with java.
Notation "x <- m ;; k" := (bind m (fun x => k))
  (at level 61, m at next level, right associativity) : java_scope.
Notation "m ;; k" := (bind m (fun _ => k))
  (at level 61, right associativity) : java_scope.
Local Open Scope java_scope.

(** [try { body } catch (T e) { handler }]: [handler e] is [Some h] when [e]
    is a [T], [None] when the clause does not apply and [e] propagates. *)
Definition try_catch {A} (body : Java A) (handler : Throwable -> option (Java A))
  : Java A :=
  fun w => match body w with
           | Normal a w' => Normal a w'
           | Abrupt e w' =>
               match handler e with
               | Some h => h w'
               | None => Abrupt e w'
               end
           end.

Definition worldOf {A} (c : Completion A) : World :=
  match c with Normal _ w => w | Abrupt _ w => w end.

(** *** Primitive computations *)

Definition getFields : Java USBCameraModule := fun w => Normal (fields w) w.
Definition getPlatform : Java Platform := fun w => Normal (platform w) w.

Definition setFields (f : USBCameraModule -> USBCameraModule) : Java unit :=
  fun w => Normal tt (mkWorld (platform w) (f (fields w)) (nextObject w) (trace w)).

Definition perform (e : Effect) : Java unit :=
  fun w => Normal tt (mkWorld (platform w) (fields w) (nextObject w) (trace w ++ [e])).

Definition fresh : Java nat :=
  fun w => Normal (nextObject w)
                  (mkWorld (platform w) (fields w) (S (nextObject w)) (trace w)).

(** Dereferencing a field that may be null. *)
Definition deref {A} (o : option A) : Java A :=
  match o with
  | Some a => ret a
  | None => throw NullPointerException
  end.

(** A platform call declared [throws CameraAccessException]. *)
Definition checked {A} (c : Checked A) : Java A :=
  match c with
  | Returns a => ret a
  | ThrowsCameraAccess msg => throw (CameraAccessException msg)
  | ThrowsUnchecked className msg => throw (UncheckedException className msg)
  end.

Definition set_cameraDevice (v : option CameraDevice) (m : USBCameraModule) : USBCameraModule :=
  mkFields (cameraManager m) v (captureSession m) (imageReader m)
           (backgroundThread m) (backgroundHandler m).
Definition set_captureSession (v : option CameraCaptureSession) (m : USBCameraModule)
  : USBCameraModule :=
  mkFields (cameraManager m) (cameraDevice m) v (imageReader m)
           (backgroundThread m) (backgroundHandler m).
Definition set_imageReader (v : option ImageReader) (m : USBCameraModule) : USBCameraModule :=
  mkFields (cameraManager m) (cameraDevice m) (captureSession m) v
           (backgroundThread m) (backgroundHandler m).
Definition set_backgroundThread (v : option HandlerThread) (m : USBCameraModule)
  : USBCameraModule :=
  mkFields (cameraManager m) (cameraDevice m) (captureSession m) (imageReader m)
           v (backgroundHandler m).
Definition set_backgroundHandler (v : option Handler) (m : USBCameraModule) : USBCameraModule :=
  mkFields (cameraManager m) (cameraDevice m) (captureSession m) (imageReader m)
           (backgroundThread m) v.

(** [promise.resolve], [promise.reject] and the private [sendEvent]. *)
Definition resolve (p : Promise) (v : Value) : Java unit :=
  perform (PromiseResolve p v).
Definition reject (p : Promise) (code message : string) : Java unit :=
  perform (PromiseReject p code message).
Definition sendEvent (eventName : string) (params : WritableMap) : Java unit :=
  perform (Emit eventName params).

(** [promise.reject(code, text + e.getMessage())] *)
Definition rejectWith (p : Promise) (code text : string) (e : Throwable)
  : Java unit :=
  pf <- getPlatform ;;
  reject p code (text ++ getMessage pf e).

(** The constructor: the fields start out null except [cameraManager]. *)
Definition newModule (pf : Platform) : World :=
  mkWorld pf (mkFields (getSystemService pf) None None None None None) 0 [].

(* ================================================================= *)
(** ** Device Descriptor Registry: [getAvailableCameras] *)

(** The [switch (facing)] of the enumeration loop, with the variables
    [cameraType] and [isUSBCamera] it leaves behind. *)
Definition classifyFacing (K : LensFacingConstants) (facing : option Z)
  : string * bool :=
  match facing with
  | Some f =>
      if Z.eqb f (LENS_FACING_FRONT K) then ("front", false)
      else if Z.eqb f (LENS_FACING_BACK K) then ("back", false)
      else if Z.eqb f (LENS_FACING_EXTERNAL K) then ("external", true)
      else ("unknown", false)
  | None => ("external", true)
  end.

Definition resolutionOf (size : Size) : WritableMap :=
  putInt "height" (getHeight size) (putInt "width" (getWidth size) createMap).

(** "Get supported resolutions": the inner [for (Size size : sizes)]. *)
Definition resolutionsOf (map : option StreamConfigurationMap) : WritableArray :=
  match map with
  | Some m =>
      match getOutputSizes m with
      | Some sizes =>
          fold_left (fun resolutions size => pushMap (resolutionOf size) resolutions)
                    sizes createArray
      | None => createArray
      end
  | None => createArray
  end.

(** The body of the per-camera [try] once the characteristics are there. *)
Definition describeCamera (K : LensFacingConstants) (cameraId : string)
    (characteristics : CameraCharacteristics) : WritableMap :=
  let facing := LENS_FACING characteristics in
  let cameraType := fst (classifyFacing K facing) in
  let isUSBCamera := snd (classifyFacing K facing) in
  let resolutions :=
    resolutionsOf (SCALER_STREAM_CONFIGURATION_MAP characteristics) in
  let cameraInfo :=
    putArray "resolutions" resolutions
      (putBoolean "isUSBCamera" isUSBCamera
         (putString "type" cameraType
            (putString "id" cameraId createMap))) in
  if isUSBCamera then
    putString "description" "External USB Camera Device"
      (putString "name" "USB Digital Microscope" cameraInfo)
  else
    putString "description" ("Built-in " ++ cameraType ++ " camera")
      (putString "name" ("Phone Camera (" ++ cameraType ++ ")") cameraInfo).

(** [for (String cameraId : cameraIds) { try { .. } catch (CameraAccessException e) { } }] *)
Fixpoint forEachCamera (K : LensFacingConstants) (mgr : CameraManager)
    (cameraIds : list string) (cameras : WritableArray) : Java WritableArray :=
  match cameraIds with
  | [] => ret cameras
  | cameraId :: rest =>
      cameras' <-
        try_catch
          (characteristics <- checked (getCameraCharacteristics mgr cameraId) ;;
           ret (pushMap (describeCamera K cameraId characteristics) cameras))
          (fun e => match e with
                    | CameraAccessException _ => Some (ret cameras)
                    | _ => None
                    end) ;;
      forEachCamera K mgr rest cameras'
  end.

Definition getAvailableCameras (promise : Promise) : Java unit :=
  try_catch
    (m <- getFields ;;
     pf <- getPlatform ;;
     mgr <- deref (cameraManager m) ;;
     cameraIds <- checked (getCameraIdList mgr) ;;
     cameras <- forEachCamera (lensFacing pf) mgr cameraIds createArray ;;
     resolve promise (VArray cameras))
    (fun e => match e with
              | CameraAccessException _ =>
                  Some (rejectWith promise "CAMERA_ERROR" "Failed to get camera list: " e)
              | _ =>
                  Some (rejectWith promise "UNKNOWN_ERROR" "Unexpected error: " e)
              end).

(* ================================================================= *)
(** ** Capture Session Manager *)

Definition startBackgroundThread : Java unit :=
  n <- fresh ;;
  setFields (set_backgroundThread (Some (Thread n))) ;;
  perform (ThreadStart (Thread n)) ;;
  setFields (set_backgroundHandler (Some (HandlerOf (Thread n)))).

(** [backgroundThread.join()] *)
Definition join (t : HandlerThread) : Java unit :=
  pf <- getPlatform ;;
  if joinInterrupted pf t then throw InterruptedException
  else perform (ThreadJoined t).

Definition stopBackgroundThread : Java unit :=
  m <- getFields ;;
  match backgroundThread m with
  | Some t =>
      perform (ThreadQuitSafely t) ;;
      try_catch
        (join t ;;
         setFields (set_backgroundThread None) ;;
         setFields (set_backgroundHandler None))
        (fun e => match e with
                  | InterruptedException => Some (ret tt)
                  | _ => None
                  end)
  | None => ret tt
  end.

(** *** [openCamera] and its [CameraDevice.StateCallback] *)

Definition onOpened (cameraId : string) (promise : Promise)
    (camera : CameraDevice) : Java unit :=
  setFields (set_cameraDevice (Some camera)) ;;
  sendEvent "USBCameraEvent"
    (putString "status" "opened" (putString "cameraId" cameraId createMap)) ;;
  resolve promise (VString "Camera opened successfully").

Definition onDisconnected (cameraId : string) (camera : CameraDevice)
  : Java unit :=
  perform (DeviceClose camera) ;;
  setFields (set_cameraDevice None) ;;
  sendEvent "USBCameraEvent"
    (putString "status" "disconnected" (putString "cameraId" cameraId createMap)).

Definition onError (cameraId : string) (camera : CameraDevice) (error : Z)
  : Java unit :=
  perform (DeviceClose camera) ;;
  setFields (set_cameraDevice None) ;;
  sendEvent "USBCameraEvent"
    (putInt "errorCode" error
       (putString "status" "error" (putString "cameraId" cameraId createMap))).

Definition openCamera (cameraId : string) (promise : Promise) : Java unit :=
  pf <- getPlatform ;;
  if negb (cameraPermissionGranted pf) then
    reject promise "PERMISSION_DENIED" "Camera permission not granted"
  else
    try_catch
      (startBackgroundThread ;;
       m <- getFields ;;
       mgr <- deref (cameraManager m) ;;
       checked (openCameraRequest mgr cameraId) ;;
       perform (OpenCameraRequested cameraId promise (backgroundHandler m)))
      (fun e => match e with
                | CameraAccessException _ =>
                    Some (rejectWith promise "CAMERA_ERROR" "Failed to open camera: " e)
                | _ => None
                end).

(** *** [startPreview], its frame listener and its session callback *)

(** [onImageAvailable(reader)]; [latest] is what
    [reader.acquireLatestImage()] returns, null when no frame is pending. *)
Definition onImageAvailable (reader : ImageReader) (latest : option Image)
  : Java unit :=
  match latest with
  | Some image =>
      pf <- getPlatform ;;
      let base64Image := base64EncodeToString pf (planeBytes image) in
      sendEvent "USBCameraImageCaptured"
        (putString "source" "usb_microscope"
           (putString "imageData" ("data:image/jpeg;base64," ++ base64Image)
              createMap)) ;;
      perform (ImageClose image)
  | None => ret tt
  end.

Definition onConfigured (promise : Promise) (session : CameraCaptureSession)
  : Java unit :=
  setFields (set_captureSession (Some session)) ;;
  try_catch
    (m <- getFields ;;
     pf <- getPlatform ;;
     d <- deref (cameraDevice m) ;;
     checked (createCaptureRequest pf d TEMPLATE_PREVIEW) ;;
     r <- deref (imageReader m) ;;
     checked (setRepeatingRequestCall pf session) ;;
     perform (RepeatingRequestSet session r) ;;
     sendEvent "USBCameraEvent" (putString "status" "preview_started" createMap) ;;
     resolve promise (VString "Preview started successfully"))
    (fun e => match e with
              | CameraAccessException _ =>
                  Some (rejectWith promise "PREVIEW_ERROR" "Failed to start preview: " e)
              | _ => None
              end).

Definition onConfigureFailed (promise : Promise) (session : CameraCaptureSession)
  : Java unit :=
  reject promise "SESSION_ERROR" "Failed to configure capture session".

Definition startPreview (width height : Z) (promise : Promise) : Java unit :=
  m <- getFields ;;
  match cameraDevice m with
  | None => reject promise "NO_CAMERA" "No camera is currently open"
  | Some _ =>
      try_catch
        (pf <- getPlatform ;;
         match newInstanceThrows pf width height with
         | Some msg => throw (UncheckedException "IllegalArgumentException" msg)
         | None => ret tt
         end ;;
         n <- fresh ;;
         perform (ReaderNew (Reader n) width height) ;;
         setFields (set_imageReader (Some (Reader n))) ;;
         m <- getFields ;;
         r <- deref (imageReader m) ;;
         perform (ReaderListenerSet r (backgroundHandler m)) ;;
         pf <- getPlatform ;;
         d <- deref (cameraDevice m) ;;
         checked (createCaptureSessionRequest pf d) ;;
         perform (CaptureSessionRequested d r promise (backgroundHandler m)))
        (fun e => match e with
                  | CameraAccessException _ =>
                      Some (rejectWith promise "CAMERA_ERROR" "Error starting preview: " e)
                  | _ => None
                  end)
  end.

(** *** [captureImage] *)

Definition captureImage (promise : Promise) : Java unit :=
  m <- getFields ;;
  match captureSession m with
  | None => reject promise "NO_SESSION" "No active capture session"
  | Some session =>
      try_catch
        (pf <- getPlatform ;;
         d <- deref (cameraDevice m) ;;
         checked (createCaptureRequest pf d TEMPLATE_STILL_CAPTURE) ;;
         r <- deref (imageReader m) ;;
         checked (captureCall pf session) ;;
         perform (CaptureSubmitted session r) ;;
         resolve promise (VString "Image capture initiated"))
        (fun e => match e with
                  | CameraAccessException _ =>
                      Some (rejectWith promise "CAPTURE_ERROR" "Failed to capture image: " e)
                  | _ => None
                  end)
  end.

(** *** [closeCamera] *)

Definition closeCamera (promise : Promise) : Java unit :=
  m <- getFields ;;
  match captureSession m with
  | Some s => perform (SessionClose s) ;; setFields (set_captureSession None)
  | None => ret tt
  end ;;
  m <- getFields ;;
  match cameraDevice m with
  | Some d => perform (DeviceClose d) ;; setFields (set_cameraDevice None)
  | None => ret tt
  end ;;
  m <- getFields ;;
  match imageReader m with
  | Some r => perform (ReaderClose r) ;; setFields (set_imageReader None)
  | None => ret tt
  end ;;
  stopBackgroundThread ;;
  sendEvent "USBCameraEvent" (putString "status" "closed" createMap) ;;
  resolve promise (VString "Camera closed successfully").

(* ================================================================= *)
(** ** Histories *)

(** One thing that happens to the module: the host calls a
    [@ReactMethod], or the platform invokes a callback the module
    registered. *)
Inductive Input : Type :=
| CallGetAvailableCameras (promise : Promise)
| CallOpenCamera (cameraId : string) (promise : Promise)
| CallStartPreview (width height : Z) (promise : Promise)
| CallCaptureImage (promise : Promise)
| CallCloseCamera (promise : Promise)
| HwOpened (cameraId : string) (promise : Promise) (camera : CameraDevice)
| HwDisconnected (cameraId : string) (camera : CameraDevice)
| HwError (cameraId : string) (camera : CameraDevice) (error : Z)
| HwConfigured (promise : Promise) (session : CameraCaptureSession)
| HwConfigureFailed (promise : Promise) (session : CameraCaptureSession)
| HwImageAvailable (reader : ImageReader) (latest : option Image).

Definition step (i : Input) : Java unit :=
  match i with
  | CallGetAvailableCameras p => getAvailableCameras p
  | CallOpenCamera cameraId p => openCamera cameraId p
  | CallStartPreview width height p => startPreview width height p
  | CallCaptureImage p => captureImage p
  | CallCloseCamera p => closeCamera p
  | HwOpened cameraId p camera => onOpened cameraId p camera
  | HwDisconnected cameraId camera => onDisconnected cameraId camera
  | HwError cameraId camera error => onError cameraId camera error
  | HwConfigured p session => onConfigured p session
  | HwConfigureFailed p session => onConfigureFailed p session
  | HwImageAvailable reader latest => onImageAvailable reader latest
  end.

(** A history, run until it ends or something is thrown and not caught. *)
Fixpoint run (history : list Input) : Java unit :=
  match history with
  | [] => ret tt
  | i :: rest => step i ;; run rest
  end.

(** *** Reading the log *)

Definition isEmit (name : string) (e : Effect) : bool :=
  match e with
  | Emit n _ => String.eqb n name
  | _ => false
  end.

(** An [Emit] of [USBCameraEvent] whose [status] is [status]. *)
Definition isStatus (status : string) (e : Effect) : bool :=
  match e with
  | Emit n params =>
      String.eqb n "USBCameraEvent" &&
      match getKey "status" params with
      | Some (VString s) => String.eqb s status
      | _ => false
      end
  | _ => false
  end.

Definition isImageCaptured : Effect -> bool := isEmit "USBCameraImageCaptured".

Definition isDeviceClose (d : CameraDevice) (e : Effect) : bool :=
  match e, d with
  | DeviceClose (Device h), Device h' => Nat.eqb h h'
  | _, _ => false
  end.

Definition isRejectOf (p : Promise) (e : Effect) : bool :=
  match e with
  | PromiseReject q _ _ => Nat.eqb q p
  | _ => false
  end.

Definition isResolveOf (p : Promise) (e : Effect) : bool :=
  match e with
  | PromiseResolve q _ => Nat.eqb q p
  | _ => false
  end.

Definition count (f : Effect -> bool) (l : list Effect) : nat :=
  List.length (filter f l).

(** What a computation adds to the log of [w]. *)
Definition effectsOf {A} (m : Java A) (w : World) : list Effect :=
  skipn (List.length (trace w)) (trace (worldOf (m w))).

Definition completesNormally {A} (c : Completion A) : bool :=
  match c with Normal _ _ => true | Abrupt _ _ => false end.

(** The sizes a camera offers for JPEG output, none when the platform has no
    stream configuration for it. *)
Definition supportedSizes (characteristics : CameraCharacteristics) : list Size :=
  match SCALER_STREAM_CONFIGURATION_MAP characteristics with
  | Some m => match getOutputSizes m with Some sizes => sizes | None => [] end
  | None => []
  end.

(** The descriptors of the cameras whose characteristics can be read, in
    the order the platform lists them. *)
Fixpoint readableDescriptors (K : LensFacingConstants) (mgr : CameraManager)
    (cameraIds : list string) : WritableArray :=
  match cameraIds with
  | [] => []
  | cameraId :: rest =>
      match getCameraCharacteristics mgr cameraId with
      | Returns characteristics =>
          VMap (describeCamera K cameraId characteristics)
            :: readableDescriptors K mgr rest
      | ThrowsCameraAccess _ | ThrowsUnchecked _ _ =>
          readableDescriptors K mgr rest
      end
  end.

(** The unchecked exception of the first listed camera whose
    characteristics query throws one, as class name and message. *)
Fixpoint firstFault (mgr : CameraManager) (cameraIds : list string)
  : option (string * string) :=
  match cameraIds with
  | [] => None
  | cameraId :: rest =>
      match getCameraCharacteristics mgr cameraId with
      | ThrowsUnchecked className msg => Some (className, msg)
      | Returns _ | ThrowsCameraAccess _ => firstFault mgr rest
      end
  end.

(** The camera service cannot be queried: the module holds no manager, or
    the manager's id listing throws. *)
Definition serviceUnavailable (w : World) : bool :=
  match cameraManager (fields w) with
  | None => true
  | Some mgr =>
      match getCameraIdList mgr with
      | Returns _ => false
      | ThrowsCameraAccess _ | ThrowsUnchecked _ _ => true
      end
  end.

(** How [getAvailableCameras] settles its promise. *)
Definition listingSettlement (p : Promise) (w : World) : Effect :=
  match cameraManager (fields w) with
  | None =>
      PromiseReject p "UNKNOWN_ERROR"
        ("Unexpected error: " ++ runtimeMessage (platform w) NullPointerException)
  | Some mgr =>
      match getCameraIdList mgr with
      | Returns cameraIds =>
          match firstFault mgr cameraIds with
          | None =>
              PromiseResolve p
                (VArray (readableDescriptors (lensFacing (platform w)) mgr
                                             cameraIds))
          | Some (_, msg) =>
              PromiseReject p "UNKNOWN_ERROR" ("Unexpected error: " ++ msg)
          end
      | ThrowsCameraAccess msg =>
          PromiseReject p "CAMERA_ERROR" ("Failed to get camera list: " ++ msg)
      | ThrowsUnchecked _ msg =>
          PromiseReject p "UNKNOWN_ERROR" ("Unexpected error: " ++ msg)
      end
  end.

(** What [stopBackgroundThread] leaves in the [backgroundThread] field. *)
Definition threadAfterStop (pf : Platform) (t : option HandlerThread)
  : option HandlerThread :=
  match t with
  | Some th => if joinInterrupted pf th then Some th else None
  | None => None
  end.

(** What [stopBackgroundThread] does to the thread it finds. *)
Definition stopEffects (pf : Platform) (t : option HandlerThread) : list Effect :=
  match t with
  | Some th =>
      if joinInterrupted pf th then [ThreadQuitSafely th]
      else [ThreadQuitSafely th; ThreadJoined th]
  | None => []
  end.

(* ================================================================= *)
(** ** A simulated platform *)

(** The values the Android SDK gives the three constants. *)
Definition androidLensFacing : LensFacingConstants := mkLensFacing 0 1 2.

Definition hd1080 : Size := mkSize 1920 1080.
Definition vga : Size := mkSize 640 480.

(** Three cameras: a rear camera, one whose characteristics cannot be read,
    and a USB microscope that reports no facing and offers VGA only. *)
Definition simulatedCharacteristics (cameraId : string)
  : Checked CameraCharacteristics :=
  if String.eqb cameraId "0" then
    Returns (mkCharacteristics (Some 1%Z) (Some (mkStreamMap (Some [hd1080; vga]))))
  else if String.eqb cameraId "cam-external-1" then
    Returns (mkCharacteristics None (Some (mkStreamMap (Some [vga]))))
  else ThrowsCameraAccess "CAMERA_DISCONNECTED".

Definition simulatedManager : CameraManager :=
  mkManager (Returns ["0"; "7"; "cam-external-1"])
            simulatedCharacteristics
            (fun _ => Returns tt).

(** The hardware of scenario A: one camera facing back, one without a
    facing property. *)
Definition scenarioAManager : CameraManager :=
  mkManager (Returns ["0"; "cam-external-1"])
            simulatedCharacteristics
            (fun _ => Returns tt).

(** [ImageReader.newInstance] as documented: it refuses a width or a
    height below 1. *)
Definition positiveSizesOnly (width height : Z) : option string :=
  if (width <? 1)%Z || (height <? 1)%Z
  then Some "The image dimensions must be positive"
  else None.

Definition simulatedPlatform (mgr : CameraManager) : Platform :=
  mkPlatform androidLensFacing (Some mgr) true
             (fun _ => Returns tt) (fun _ _ => Returns tt)
             (fun _ => Returns tt) (fun _ => Returns tt)
             (fun _ => false)
             (fun bytes => String.concat "," (List.map (fun _ => "b") bytes))
             positiveSizesOnly (fun _ => "null").

Definition idle : World := newModule (simulatedPlatform simulatedManager).

Definition frame (n : nat) : option Image := Some (mkImage n [255; 216; 255]%Z).

(** open, opened, startPreview(1920,1080), session configured. *)
Definition toPreviewing : list Input :=
  [ CallOpenCamera "cam-external-1" 1;
    HwOpened "cam-external-1" 1 (Device 100);
    CallStartPreview 1920 1080 2;
    HwConfigured 2 (Session 200) ].

Definition previewing : World := worldOf (run toPreviewing idle).

(** *** What [closeCamera] does, spelled out *)

Definition closedEvent : Effect :=
  Emit "USBCameraEvent" [("status", VString "closed")].

Definition closeResolution (p : Promise) : Effect :=
  PromiseResolve p (VString "Camera closed successfully").

(** The calls [closeCamera] makes on the resources it finds. *)
Definition releaseEffects (pf : Platform) (m : USBCameraModule) : list Effect :=
  match captureSession m with Some s => [SessionClose s] | None => [] end ++
  match cameraDevice m with Some d => [DeviceClose d] | None => [] end ++
  match imageReader m with Some r => [ReaderClose r] | None => [] end ++
  stopEffects pf (backgroundThread m).

Definition handlerAfterStop (pf : Platform) (m : USBCameraModule) : option Handler :=
  match backgroundThread m with
  | Some th => if joinInterrupted pf th then backgroundHandler m else None
  | None => backgroundHandler m
  end.

Definition afterClose (pf : Platform) (m : USBCameraModule) : USBCameraModule :=
  mkFields (cameraManager m) None None None
           (threadAfterStop pf (backgroundThread m)) (handlerAfterStop pf m).

(** Closing a camera device, a capture session or an image reader. *)
Definition isHandleClose (e : Effect) : bool :=
  match e with
  | DeviceClose _ | SessionClose _ | ReaderClose _ => true
  | _ => false
  end.

Definition isOpenRequest (e : Effect) : bool :=
  match e with
  | OpenCameraRequested _ _ _ => true
  | _ => false
  end.

(** A frame that reaches the listener of an image reader. *)
Definition deliversFrame (i : Input) : bool :=
  match i with
  | HwImageAvailable _ (Some _) => true
  | _ => false
  end.

Definition framesDelivered (history : list Input) : nat :=
  List.length (filter deliversFrame history).

(** The event the frame listener sends for [image]. *)
Definition imageCapturedEvent (pf : Platform) (image : Image) : Effect :=
  Emit "USBCameraImageCaptured"
       [("imageData",
         VString ("data:image/jpeg;base64,"
                  ++ base64EncodeToString pf (planeBytes image)));
        ("source", VString "usb_microscope")].

Definition disconnectedEvent (cameraId : string) : Effect :=
  Emit "USBCameraEvent"
       [("cameraId", VString cameraId); ("status", VString "disconnected")].

Definition openedEvent (cameraId : string) : Effect :=
  Emit "USBCameraEvent"
       [("cameraId", VString cameraId); ("status", VString "opened")].

(** open and opened, for the USB microscope: a session is live. *)
Definition opened : World :=
  worldOf (run [ CallOpenCamera "cam-external-1" 1;
                 HwOpened "cam-external-1" 1 (Device 100) ] idle).

(** The previewing session after the platform reported a disconnect. *)
Definition disconnected : World :=
  worldOf (run (toPreviewing ++ [HwDisconnected "cam-external-1" (Device 100)])
               idle).

(* ================================================================= *)
(** ** The specification's wording, for comparison with the code *)

(** "a new open call while one is live must fail fast rather than silently
    replace it": the promise of the second [open] is rejected at once and no
    further hardware open is requested. *)
Definition spec_openFailsFast (w : World) (cameraId : string) (p : Promise)
  : Prop :=
  count (isRejectOf p) (effectsOf (openCamera cameraId p) w) = 1 /\
  count isOpenRequest (effectsOf (openCamera cameraId p) w) = 0.

Definition capturesRequested (history : list Input) : nat :=
  List.length (filter (fun i => match i with
                                | CallCaptureImage _ => true
                                | _ => false
                                end) history).

(** "exactly one such image per capture() call": over a history run during
    a live preview, as many [USBCameraImageCaptured] events as calls to
    [captureImage]. *)
Definition spec_oneImagePerCapture (w : World) (history : list Input) : Prop :=
  count isImageCaptured (effectsOf (run history) w) = capturesRequested history.


(** "exactly one disconnected event ... forces teardown ... no further
    imageCaptured events even if stray frames are already queued". *)
Definition spec_disconnectTearsDown (w : World) (cameraId : string)
    (camera : CameraDevice) (stray : list Input) : Prop :=
  let w' := worldOf (onDisconnected cameraId camera w) in
  count (isStatus "disconnected")
        (effectsOf (onDisconnected cameraId camera) w) = 1 /\
  count (isDeviceClose camera)
        (effectsOf (onDisconnected cameraId camera) w) = 1 /\
  captureSession (fields w') = None /\
  imageReader (fields w') = None /\
  backgroundThread (fields w') = None /\
  count isImageCaptured (effectsOf (run stray) w') = 0.

(** Whether a camera offers the resolution [width] x [height]. *)
Definition supportsResolution (mgr : CameraManager) (cameraId : string)
    (width height : Z) : bool :=
  match getCameraCharacteristics mgr cameraId with
  | Returns ch =>
      existsb (fun size => Z.eqb (getWidth size) width
                           && Z.eqb (getHeight size) height)
              (supportedSizes ch)
  | ThrowsCameraAccess _ | ThrowsUnchecked _ _ => false
  end.

(** "Fails with UnsupportedResolution if config is not in the descriptor's
    supported set", for the camera [cameraId] that is open in [w]. *)
Definition spec_startPreviewValidates (w : World) (mgr : CameraManager)
    (cameraId : string) (width height : Z) (p : Promise) : Prop :=
  supportsResolution mgr cameraId width height = false ->
  count (isRejectOf p) (effectsOf (startPreview width height p) w) = 1.

(** [m] only ever extends the log, and by effects that are no
    [USBCameraImageCaptured] event. *)
Definition sendsNoImage {A} (m : Java A) : Prop :=
  forall w, exists added,
    trace (worldOf (m w)) = trace w ++ added /\
    count isImageCaptured added = 0.

(* ================================================================= *)
(** ** Further vocabulary for the session manager *)

Definition errorEvent (cameraId : string) (error : Z) : Effect :=
  Emit "USBCameraEvent"
       [("cameraId", VString cameraId); ("status", VString "error");
        ("errorCode", VInt error)].

Definition previewStartedEvent : Effect :=
  Emit "USBCameraEvent" [("status", VString "preview_started")].

(** A promise being resolved or rejected, whichever promise it is. *)
Definition isSettlement (e : Effect) : bool :=
  match e with
  | PromiseResolve _ _ | PromiseReject _ _ _ => true
  | _ => false
  end.

(** How often the promise [p] is settled in [l]. *)
Definition settlementsOf (p : Promise) (l : list Effect) : nat :=
  count (isResolveOf p) l + count (isRejectOf p) l.

Definition isThreadStart (e : Effect) : bool :=
  match e with ThreadStart _ => true | _ => false end.

Definition isThreadQuit (t : HandlerThread) (e : Effect) : bool :=
  match e, t with
  | ThreadQuitSafely (Thread h), Thread h' => Nat.eqb h h'
  | _, _ => false
  end.

Definition isReaderNew (e : Effect) : bool :=
  match e with ReaderNew _ _ _ => true | _ => false end.

Definition isReaderClose (r : ImageReader) (e : Effect) : bool :=
  match e, r with
  | ReaderClose (Reader h), Reader h' => Nat.eqb h h'
  | _, _ => false
  end.

(** When [captureImage] ends in an uncaught exception: a session is set
    and either no camera is ([NullPointerException]), or building the
    capture request throws an unchecked exception, or the request is built
    and no image reader is there to target ([NullPointerException]), or
    [capture] throws an unchecked exception. *)
Definition captureFaults (w : World) : bool :=
  match captureSession (fields w) with
  | None => false
  | Some session =>
      match cameraDevice (fields w) with
      | None => true
      | Some d =>
          match createCaptureRequest (platform w) d TEMPLATE_STILL_CAPTURE with
          | Returns _ =>
              match imageReader (fields w) with
              | None => true
              | Some _ =>
                  match captureCall (platform w) session with
                  | ThrowsUnchecked _ _ => true
                  | Returns _ | ThrowsCameraAccess _ => false
                  end
              end
          | ThrowsCameraAccess _ => false
          | ThrowsUnchecked _ _ => true
          end
      end
  end.

(** The events the module may send: a [USBCameraEvent] whose status is one
    of five words, or a [USBCameraImageCaptured] whose [imageData] is a JPEG
    data URI and whose [source] is the microscope. *)
Definition knownStatus (s : string) : bool :=
  existsb (String.eqb s)
          ["opened"; "disconnected"; "error"; "preview_started"; "closed"].

Definition wellFormedEvent (e : Effect) : bool :=
  match e with
  | Emit name params =>
      if String.eqb name "USBCameraEvent" then
        match getKey "status" params with
        | Some (VString s) => knownStatus s
        | _ => false
        end
      else if String.eqb name "USBCameraImageCaptured" then
        match getKey "imageData" params, getKey "source" params with
        | Some (VString data), Some (VString src) =>
            String.prefix "data:image/jpeg;base64," data
            && String.eqb src "usb_microscope"
        | _, _ => false
        end
      else false
  | _ => true
  end.

(** [m] only ever extends the log, and by effects that satisfy [P]. *)
Definition addsOnly (P : Effect -> bool) {A} (m : Java A) : Prop :=
  forall w, exists added,
    trace (worldOf (m w)) = trace w ++ added /\
    forallb P added = true.



(** A platform on which the camera permission is withheld and the camera
    service is missing. *)
Definition barePlatform : Platform :=
  mkPlatform androidLensFacing None false
             (fun _ => Returns tt) (fun _ _ => Returns tt)
             (fun _ => Returns tt) (fun _ => Returns tt)
             (fun _ => false)
             (fun _ => EmptyString)
             positiveSizesOnly (fun _ => "null").

(** A platform with the permission granted and no camera service. *)
Definition unservedPlatform : Platform :=
  mkPlatform androidLensFacing None true
             (fun _ => Returns tt) (fun _ _ => Returns tt)
             (fun _ => Returns tt) (fun _ => Returns tt)
             (fun _ => false)
             (fun _ => EmptyString)
             positiveSizesOnly (fun _ => "null").

(** The promise an input may settle: the one passed to the method, or the
    one the callback captured when it was registered. *)
Definition promiseOf (i : Input) : option Promise :=
  match i with
  | CallGetAvailableCameras p | CallOpenCamera _ p | CallStartPreview _ _ p
  | CallCaptureImage p | CallCloseCamera p
  | HwOpened _ p _ | HwConfigured p _ | HwConfigureFailed p _ => Some p
  | HwDisconnected _ _ | HwError _ _ _ | HwImageAvailable _ _ => None
  end.

(* ================================================================= *)
(** ** The host component [NativeUSBCamera]

    The React component that drives the module from JavaScript.  What it
    does is kept as the list of its actions, in program order: calls of its
    state setters, of the callbacks it received as props, of [Alert.alert]
    and of its own [startPreview].  Objects that come over the bridge are
    the [Value]s the module sent; [console.log] calls are left out. *)

(** [object.name]: the property, or undefined ([None]). *)
Definition property (name : string) (object : Value) : option Value :=
  match object with
  | VMap entries => getKey name entries
  | _ => None
  end.

(** JavaScript truthiness. *)
Definition truthy (v : option Value) : bool :=
  match v with
  | None => false
  | Some (VBoolean b) => b
  | Some (VString s) => negb (String.eqb s "")
  | Some (VInt n) => negb (Z.eqb n 0)
  | Some (VArray _) | Some (VMap _) => true
  end.

(** [v === 'text'] *)
Definition strictEquals (v : option Value) (text : string) : bool :=
  match v with
  | Some (VString s) => String.eqb s text
  | _ => false
  end.

(** A value inside a template literal. *)
Fixpoint jsString (v : Value) : string :=
  match v with
  | VString s => s
  | VBoolean b => if b then "true" else "false"
  | VInt n => NilZero.string_of_int (Z.to_int n)
  | VArray items => String.concat "," (List.map jsString items)
  | VMap _ => "[object Object]"
  end.

Definition interpolate (v : option Value) : string :=
  match v with
  | Some x => jsString x
  | None => "undefined"
  end.

(** The object literal [{ name: .., type: .., id: .. }]. *)
Record ConnectionInfo := mkConnectionInfo {
  infoName : option Value;
  infoType : string;
  infoId : option Value
}.

Inductive HostAction : Type :=
| SetCameraStatus (status : string)
| SetCameras (cameras : list Value)
| SetSelectedCamera (camera : Value)
| SetPreviewActive (active : bool)
| SetIsCapturing (capturing : bool)
| OnConnectionChange (connected : bool) (info : option ConnectionInfo)
| OnImageCaptured (imageData : option Value)
| AlertAlert (title message : string)
| HostStartPreview.

(** What [await USBCameraModule.getAvailableCameras()] yields: the array
    the promise was resolved with, or an error carrying the rejection
    message. *)
Inductive Awaited : Type :=
| Fulfilled (availableCameras : list Value)
| Rejected (message : string).

(** [detectCameras]; [onConnectionChange] tells whether that prop was
    passed. *)
Definition detectCameras (onConnectionChange : bool) (awaited : Awaited)
  : list HostAction :=
  SetCameraStatus "detecting" ::
  match awaited with
  | Fulfilled availableCameras =>
      SetCameras availableCameras ::
      match find (fun camera => truthy (property "isUSBCamera" camera))
                 availableCameras with
      | Some usbCamera =>
          [SetSelectedCamera usbCamera; SetCameraStatus "usb_camera_found"] ++
          (if onConnectionChange then
             [OnConnectionChange true
                (Some (mkConnectionInfo (property "name" usbCamera) "USB"
                                        (property "id" usbCamera)))]
           else [])
      | None =>
          match find (fun camera => strictEquals (property "type" camera) "back")
                     availableCameras with
          | Some backCamera =>
              [SetSelectedCamera backCamera; SetCameraStatus "phone_camera_only"]
          | None => [SetCameraStatus "no_cameras"]
          end
      end
  | Rejected message =>
      [SetCameraStatus "detection_error";
       AlertAlert "Detection Error" ("Failed to detect cameras: " ++ message)]
  end.

(** [handleCameraEvent]: a [switch] on [event.status] without default. *)
Definition handleCameraEvent (onConnectionChange : bool) (event : Value)
  : list HostAction :=
  let status := property "status" event in
  if strictEquals status "opened" then
    [SetCameraStatus "camera_opened"; HostStartPreview]
  else if strictEquals status "disconnected" then
    [SetCameraStatus "disconnected"; SetPreviewActive false] ++
    (if onConnectionChange then [OnConnectionChange false None] else [])
  else if strictEquals status "error" then
    [SetCameraStatus "camera_error"; SetPreviewActive false;
     AlertAlert "Camera Error"
                ("Camera error occurred (code: "
                 ++ interpolate (property "errorCode" event) ++ ")")]
  else if strictEquals status "preview_started" then
    [SetCameraStatus "preview_active"; SetPreviewActive true]
  else [].

(** [handleImageCaptured]; [onImageCaptured] tells whether that prop was
    passed. *)
Definition handleImageCaptured (onImageCaptured : bool) (event : Value)
  : list HostAction :=
  SetIsCapturing false ::
  (if truthy (property "imageData" event) && onImageCaptured then
     [OnImageCaptured (property "imageData" event)]
   else []).

(** The two listeners [setupEventListeners] registers. *)
Definition hostReceives (onConnectionChange onImageCaptured : bool) (e : Effect)
  : list HostAction :=
  match e with
  | Emit eventName params =>
      if String.eqb eventName "USBCameraEvent" then
        handleCameraEvent onConnectionChange (VMap params)
      else if String.eqb eventName "USBCameraImageCaptured" then
        handleImageCaptured onImageCaptured (VMap params)
      else []
  | _ => []
  end.

(** What the host's [await] sees of a settlement. *)
Definition awaitedOf (settlement : Effect) : option Awaited :=
  match settlement with
  | PromiseResolve _ (VArray cameras) => Some (Fulfilled cameras)
  | PromiseReject _ _ message => Some (Rejected message)
  | _ => None
  end.

(** The first listed camera whose characteristics can be read and satisfy
    [wanted]. *)
Fixpoint firstReadable (wanted : CameraCharacteristics -> bool)
    (mgr : CameraManager) (cameraIds : list string)
  : option (string * CameraCharacteristics) :=
  match cameraIds with
  | [] => None
  | cameraId :: rest =>
      match getCameraCharacteristics mgr cameraId with
      | Returns ch =>
          if wanted ch then Some (cameraId, ch)
          else firstReadable wanted mgr rest
      | ThrowsCameraAccess _ | ThrowsUnchecked _ _ =>
          firstReadable wanted mgr rest
      end
  end.

(** No facing reported, or [LENS_FACING_EXTERNAL]. *)
Definition facesExternal (K : LensFacingConstants) (ch : CameraCharacteristics)
  : bool :=
  match LENS_FACING ch with
  | None => true
  | Some f => Z.eqb f (LENS_FACING_EXTERNAL K)
  end.

Definition facesBack (K : LensFacingConstants) (ch : CameraCharacteristics)
  : bool :=
  match LENS_FACING ch with
  | None => false
  | Some f => Z.eqb f (LENS_FACING_BACK K)
  end.

Definition isOnImageCaptured (a : HostAction) : bool :=
  match a with OnImageCaptured _ => true | _ => false end.

(** [m] leaves the platform and the [cameraManager] field as they are. *)
Definition keepsService {A} (m : Java A) : Prop :=
  forall w,
    cameraManager (fields (worldOf (m w))) = cameraManager (fields w) /\
    platform (worldOf (m w)) = platform w.

(* ================================================================= *)
(** ** A camera that vanishes during the listing *)

(** The service lists the rear camera and a USB camera that has been
    unplugged since: the query for it throws [IllegalArgumentException]. *)
Definition vanishedCharacteristics (cameraId : string)
  : Checked CameraCharacteristics :=
  if String.eqb cameraId "0" then
    Returns (mkCharacteristics (Some 1%Z) (Some (mkStreamMap (Some [hd1080; vga]))))
  else ThrowsUnchecked "IllegalArgumentException" "Unknown camera ID".

Definition vanishedManager : CameraManager :=
  mkManager (Returns ["0"; "usb-gone"]) vanishedCharacteristics
            (fun _ => Returns tt).

Definition vanished : World := newModule (simulatedPlatform vanishedManager).

(** "fails with HardwareQueryFailed if the platform camera service is
    unavailable", read as the claim has it: exactly then. *)
Definition spec_rejectsExactlyWhenUnavailable (w : World) (p : Promise) : Prop :=
  count (isRejectOf p) (effectsOf (getAvailableCameras p) w) <> 0
  <-> serviceUnavailable w = true.

(** "one faulty device never causes the whole listDevices call to fail":
    when the id listing succeeds, the call resolves with the descriptors of
    the cameras that can be read. *)
Definition spec_faultyCameraNeverFails (w : World) (p : Promise)
    (mgr : CameraManager) (cameraIds : list string) : Prop :=
  cameraManager (fields w) = Some mgr ->
  getCameraIdList mgr = Returns cameraIds ->
  effectsOf (getAvailableCameras p) w
  = [PromiseResolve p
       (VArray (readableDescriptors (lensFacing (platform w)) mgr cameraIds))].

(** The query of some listed camera throws an unchecked exception. *)
Definition cameraFaults (w : World) : bool :=
  match cameraManager (fields w) with
  | Some mgr =>
      match getCameraIdList mgr with
      | Returns cameraIds =>
          match firstFault mgr cameraIds with Some _ => true | None => false end
      | ThrowsCameraAccess _ | ThrowsUnchecked _ _ => false
      end
  | None => false
  end.

(* ================================================================= *)
(** * Properties *)

(** ** Tactics and generic facts *)

(** Unfold the primitives of [Java] and everything built from them. *)
Ltac unfold_java :=
  unfold rejectWith, resolve, reject, sendEvent, join, deref, checked,
    getFields,
    getPlatform, setFields, perform, fresh, try_catch, bind, ret, throw in *.

Ltac break_world w :=
  let pf := fresh "pf" in
  let m := fresh "m" in
  let n := fresh "n" in
  let tr := fresh "tr" in
  destruct w as [pf m n tr];
  let mgr := fresh "mgr" in
  let dev := fresh "dev" in
  let ses := fresh "ses" in
  let rdr := fresh "rdr" in
  let thr := fresh "thr" in
  let hdl := fresh "hdl" in
  destruct m as [mgr dev ses rdr thr hdl].

Lemma app_assoc1 {A} (l : list A) (a : A) (r : list A) :
  (l ++ [a]) ++ r = l ++ a :: r.
Proof. now rewrite <- app_assoc. Qed.

Lemma skipn_app_exact {A} (l r : list A) :
  skipn (List.length l) (l ++ r) = r.
Proof. induction l as [|a l IH]; [reflexivity | exact IH]. Qed.

Lemma skipn_length_nil {A} (l : list A) : skipn (List.length l) l = [].
Proof. induction l; [reflexivity | assumption]. Qed.

Lemma effectsOf_of_trace {A} (m : Java A) (w : World) (added : list Effect) :
  trace (worldOf (m w)) = trace w ++ added -> effectsOf m w = added.
Proof. unfold effectsOf. intros ->. apply skipn_app_exact. Qed.

Lemma count_app (f : Effect -> bool) (l r : list Effect) :
  count f (l ++ r) = count f l + count f r.
Proof. unfold count. now rewrite filter_app, length_app. Qed.

(** ** The registry *)

Lemma classifyFacing_external (K : LensFacingConstants) (facing : option Z) :
  distinctLabels K ->
  classifyFacing K facing = ("external", true) <->
  facing = None \/ facing = Some (LENS_FACING_EXTERNAL K).
Proof.
  intros (Hfb & Hfe & Hbe). unfold classifyFacing.
  destruct facing as [f|]; [|intuition].
  destruct (Z.eqb_spec f (LENS_FACING_FRONT K)) as [->|Hf].
  { split; [discriminate|]. intros [H|H]; [discriminate | congruence]. }
  destruct (Z.eqb_spec f (LENS_FACING_BACK K)) as [->|Hb].
  { split; [discriminate|]. intros [H|H]; [discriminate | congruence]. }
  destruct (Z.eqb_spec f (LENS_FACING_EXTERNAL K)) as [->|He].
  { split; auto. }
  split; [discriminate|]. intros [H|H]; [discriminate | congruence].
Qed.

(** The strings and flags [classifyFacing] can produce. *)
Lemma classifyFacing_range (K : LensFacingConstants) (facing : option Z) :
  classifyFacing K facing = ("external", true) \/
  classifyFacing K facing = ("front", false) \/
  classifyFacing K facing = ("back", false) \/
  classifyFacing K facing = ("unknown", false).
Proof.
  unfold classifyFacing. destruct facing as [f|]; auto.
  destruct (f =? _)%Z; auto. destruct (f =? _)%Z; auto.
  destruct (f =? _)%Z; auto.
Qed.

Lemma describeCamera_type (K : LensFacingConstants) cameraId ch :
  getKey "type" (describeCamera K cameraId ch)
  = Some (VString (fst (classifyFacing K (LENS_FACING ch)))).
Proof.
  unfold describeCamera.
  destruct (snd (classifyFacing K (LENS_FACING ch))); reflexivity.
Qed.

Lemma describeCamera_isUSBCamera (K : LensFacingConstants) cameraId ch :
  getKey "isUSBCamera" (describeCamera K cameraId ch)
  = Some (VBoolean (snd (classifyFacing K (LENS_FACING ch)))).
Proof.
  unfold describeCamera.
  destruct (snd (classifyFacing K (LENS_FACING ch))); reflexivity.
Qed.

Lemma describeCamera_id (K : LensFacingConstants) cameraId ch :
  getKey "id" (describeCamera K cameraId ch) = Some (VString cameraId).
Proof.
  unfold describeCamera.
  destruct (snd (classifyFacing K (LENS_FACING ch))); reflexivity.
Qed.

Lemma pushMap_fold (sizes : list Size) (acc : WritableArray) :
  fold_left (fun resolutions size => pushMap (resolutionOf size) resolutions)
            sizes acc
  = acc ++ List.map (fun size => VMap (resolutionOf size)) sizes.
Proof.
  revert acc. induction sizes as [|s sizes IH]; intro acc; simpl.
  - now rewrite app_nil_r.
  - rewrite IH. unfold pushMap. apply app_assoc1.
Qed.

Lemma resolutionsOf_supportedSizes (ch : CameraCharacteristics) :
  resolutionsOf (SCALER_STREAM_CONFIGURATION_MAP ch)
  = List.map (fun size => VMap (resolutionOf size)) (supportedSizes ch).
Proof.
  unfold resolutionsOf, supportedSizes.
  destruct (SCALER_STREAM_CONFIGURATION_MAP ch) as [m|]; [|reflexivity].
  destruct (getOutputSizes m) as [sizes|]; [|reflexivity].
  apply pushMap_fold.
Qed.

Lemma describeCamera_resolutions (K : LensFacingConstants) cameraId ch :
  getKey "resolutions" (describeCamera K cameraId ch)
  = Some (VArray (List.map (fun size => VMap (resolutionOf size))
                           (supportedSizes ch))).
Proof.
  rewrite <- resolutionsOf_supportedSizes. unfold describeCamera.
  destruct (snd (classifyFacing K (LENS_FACING ch))); reflexivity.
Qed.

(** The enumeration loop never touches the world.  It appends the
    descriptors of the readable cameras, unless the query of a listed camera
    throws an unchecked exception, which then leaves the loop. *)
Lemma forEachCamera_readable (K : LensFacingConstants) (mgr : CameraManager)
    (cameraIds : list string) :
  forall (cameras : WritableArray) (w : World),
    forEachCamera K mgr cameraIds cameras w
    = match firstFault mgr cameraIds with
      | None => Normal (cameras ++ readableDescriptors K mgr cameraIds) w
      | Some (className, msg) => Abrupt (UncheckedException className msg) w
      end.
Proof.
  induction cameraIds as [|cameraId rest IH]; intros cameras w; simpl.
  - unfold ret. now rewrite app_nil_r.
  - unfold_java.
    destruct (getCameraCharacteristics mgr cameraId) as [ch|msg|c msg]; simpl;
      [rewrite IH | rewrite IH | reflexivity].
    + unfold pushMap. destruct (firstFault mgr rest) as [[c m]|];
        [reflexivity | now rewrite app_assoc1].
    + reflexivity.
Qed.

Lemma forEachCamera_world (K : LensFacingConstants) (mgr : CameraManager)
    (cameraIds : list string) (cameras : WritableArray) (w : World) :
  worldOf (forEachCamera K mgr cameraIds cameras w) = w.
Proof.
  rewrite forEachCamera_readable.
  now destruct (firstFault mgr cameraIds) as [[c m]|].
Qed.

Lemma readableDescriptors_In (K : LensFacingConstants) (mgr : CameraManager)
    (cameraIds : list string) (d : Value) :
  In d (readableDescriptors K mgr cameraIds) <->
  exists cameraId ch,
    In cameraId cameraIds /\
    getCameraCharacteristics mgr cameraId = Returns ch /\
    d = VMap (describeCamera K cameraId ch).
Proof.
  induction cameraIds as [|c rest IH]; simpl.
  - split; [tauto | intros (? & ? & [] & _)].
  - destruct (getCameraCharacteristics mgr c) as [ch|msg|cl msg] eqn:Hq; simpl;
      rewrite IH; split.
    + intros [<- | (c' & ch' & Hin & Hq' & ->)]; eauto 8.
    + intros (c' & ch' & [<- | Hin] & Hq' & ->); [left; congruence | eauto 8].
    + intros (c' & ch' & Hin & Hq' & ->); eauto 8.
    + intros (c' & ch' & [<- | Hin] & Hq' & ->); [congruence | eauto 8].
    + intros (c' & ch' & Hin & Hq' & ->); eauto 8.
    + intros (c' & ch' & [<- | Hin] & Hq' & ->); [congruence | eauto 8].
Qed.

(** [getAvailableCameras], case by case. *)
Lemma getAvailableCameras_cases (p : Promise) (w : World) :
  getAvailableCameras p w
  = Normal tt
      (mkWorld (platform w) (fields w) (nextObject w)
               (trace w ++ [listingSettlement p w])).
Proof.
  unfold getAvailableCameras, listingSettlement. unfold_java.
  destruct (cameraManager (fields w)) as [mgr|]; [|reflexivity].
  destruct (getCameraIdList mgr) as [ids|msg|c msg]; [|reflexivity..].
  rewrite forEachCamera_readable.
  now destruct (firstFault mgr ids) as [[c m]|].
Qed.

Lemma getAvailableCameras_effects (p : Promise) (w : World) :
  effectsOf (getAvailableCameras p) w = [listingSettlement p w].
Proof.
  apply effectsOf_of_trace. now rewrite getAvailableCameras_cases.
Qed.

(** C7.  Provided the three [LENS_FACING_*] labels are pairwise different,
    the descriptor built for a camera has type "external" (and the flag
    [isUSBCamera] set) exactly when the platform reports no [LENS_FACING] for
    it or reports [LENS_FACING_EXTERNAL]; and when the platform lists two
    cameras, the first facing back and the second without facing property,
    [getAvailableCameras] resolves with two descriptors, of type "back" and
    of type "external". *)
Theorem external_classification (K : LensFacingConstants) :
  distinctLabels K ->
  (forall cameraId ch,
      (getKey "type" (describeCamera K cameraId ch) = Some (VString "external")
       <-> LENS_FACING ch = None \/ LENS_FACING ch = Some (LENS_FACING_EXTERNAL K))
      /\
      (getKey "isUSBCamera" (describeCamera K cameraId ch) = Some (VBoolean true)
       <-> LENS_FACING ch = None \/ LENS_FACING ch = Some (LENS_FACING_EXTERNAL K)))
  /\
  (forall w p mgr rear usb chRear chUsb,
      lensFacing (platform w) = K ->
      cameraManager (fields w) = Some mgr ->
      getCameraIdList mgr = Returns [rear; usb] ->
      getCameraCharacteristics mgr rear = Returns chRear ->
      LENS_FACING chRear = Some (LENS_FACING_BACK K) ->
      getCameraCharacteristics mgr usb = Returns chUsb ->
      LENS_FACING chUsb = None ->
      exists dRear dUsb,
        effectsOf (getAvailableCameras p) w
        = [PromiseResolve p (VArray [VMap dRear; VMap dUsb])] /\
        getKey "id" dRear = Some (VString rear) /\
        getKey "type" dRear = Some (VString "back") /\
        getKey "isUSBCamera" dRear = Some (VBoolean false) /\
        getKey "id" dUsb = Some (VString usb) /\
        getKey "type" dUsb = Some (VString "external") /\
        getKey "isUSBCamera" dUsb = Some (VBoolean true)).
Proof.
  intro HK. split.
  - intros cameraId ch.
    rewrite describeCamera_type, describeCamera_isUSBCamera.
    rewrite <- (classifyFacing_external (LENS_FACING ch) HK).
    destruct (classifyFacing_range K (LENS_FACING ch)) as [H|[H|[H|H]]];
      rewrite H; simpl; split; split; intro E; try reflexivity;
      try discriminate E.
  - intros w p mgr rear usb chRear chUsb HKw Hmgr Hids Hrear Hback Husb Hnone.
    exists (describeCamera K rear chRear), (describeCamera K usb chUsb).
    split.
    + rewrite getAvailableCameras_effects. unfold listingSettlement.
      rewrite Hmgr, Hids, HKw. simpl. now rewrite Hrear, Husb.
    + rewrite !describeCamera_id, !describeCamera_type,
        !describeCamera_isUSBCamera, Hback, Hnone.
      destruct HK as (Hfb & _ & _). unfold classifyFacing.
      destruct (Z.eqb_spec (LENS_FACING_BACK K) (LENS_FACING_FRONT K)) as [E|_];
        [congruence|].
      rewrite Z.eqb_refl. simpl. repeat split; reflexivity.
Qed.

(** The classification at the simulated hardware of scenario A. *)
Lemma external_classification_scenarioA :
  distinctLabels androidLensFacing /\
  exists dRear dUsb,
    effectsOf (getAvailableCameras 1)
              (newModule (simulatedPlatform scenarioAManager))
    = [PromiseResolve 1 (VArray [VMap dRear; VMap dUsb])] /\
    getKey "id" dRear = Some (VString "0") /\
    getKey "type" dRear = Some (VString "back") /\
    getKey "isUSBCamera" dRear = Some (VBoolean false) /\
    getKey "id" dUsb = Some (VString "cam-external-1") /\
    getKey "type" dUsb = Some (VString "external") /\
    getKey "isUSBCamera" dUsb = Some (VBoolean true).
Proof.
  assert (HK : distinctLabels androidLensFacing).
  { unfold distinctLabels; simpl; repeat split; discriminate. }
  split; [exact HK|].
  destruct (external_classification HK) as [_ Hscenario].
  eapply Hscenario; reflexivity.
Defined.

(** C8, as the code has it.  [getAvailableCameras] always completes; it
    leaves the platform, all fields of the module and the object counter as
    they were, and adds to the log nothing but the settlement of its
    promise.  The promise is rejected when the camera service is unavailable
    (UNKNOWN_ERROR when there is no camera manager or the id listing throws
    an unchecked exception, CAMERA_ERROR when it throws
    [CameraAccessException]) and, besides, when the characteristics query of
    a listed camera throws an unchecked exception (UNKNOWN_ERROR); in no
    other case.  Otherwise it is resolved with one descriptor per readable
    camera, in listing order, each carrying the camera's id and, under
    "resolutions", the width and height of every size the camera offers. *)
Theorem getAvailableCameras_query_only (w : World) (p : Promise) :
  exists w' settlement,
    getAvailableCameras p w = Normal tt w' /\
    platform w' = platform w /\
    fields w' = fields w /\
    nextObject w' = nextObject w /\
    trace w' = trace w ++ [settlement] /\
    count (isRejectOf p) [settlement]
    = (if serviceUnavailable w || cameraFaults w then 1 else 0) /\
    match cameraManager (fields w) with
    | None =>
        settlement
        = PromiseReject p "UNKNOWN_ERROR"
            ("Unexpected error: "
             ++ runtimeMessage (platform w) NullPointerException)
    | Some mgr =>
        match getCameraIdList mgr with
        | ThrowsCameraAccess msg =>
            settlement
            = PromiseReject p "CAMERA_ERROR"
                            ("Failed to get camera list: " ++ msg)
        | ThrowsUnchecked _ msg =>
            settlement
            = PromiseReject p "UNKNOWN_ERROR" ("Unexpected error: " ++ msg)
        | Returns cameraIds =>
            match firstFault mgr cameraIds with
            | Some (_, msg) =>
                settlement
                = PromiseReject p "UNKNOWN_ERROR" ("Unexpected error: " ++ msg)
            | None =>
                exists cameras,
                  settlement = PromiseResolve p (VArray cameras) /\
                  cameras
                  = readableDescriptors (lensFacing (platform w)) mgr cameraIds /\
                  (forall cameraId ch,
                      In cameraId cameraIds ->
                      getCameraCharacteristics mgr cameraId = Returns ch ->
                      exists info,
                        In (VMap info) cameras /\
                        getKey "id" info = Some (VString cameraId) /\
                        getKey "resolutions" info
                        = Some (VArray
                                  (List.map
                                     (fun size =>
                                        VMap [("width", VInt (getWidth size));
                                              ("height", VInt (getHeight size))])
                                     (supportedSizes ch)))) /\
                  Forall
                    (fun d =>
                       exists cameraId ch info,
                         In cameraId cameraIds /\
                         getCameraCharacteristics mgr cameraId = Returns ch /\
                         d = VMap info /\
                         getKey "id" info = Some (VString cameraId) /\
                         getKey "resolutions" info
                         = Some (VArray
                                   (List.map
                                      (fun size =>
                                         VMap [("width", VInt (getWidth size));
                                               ("height", VInt (getHeight size))])
                                      (supportedSizes ch))))
                    cameras
            end
        end
    end.
Proof.
  rewrite getAvailableCameras_cases.
  eexists _, _. split; [reflexivity|]. simpl.
  do 4 (split; [reflexivity|]).
  assert (Hp : Nat.eqb p p = true) by apply Nat.eqb_refl.
  unfold serviceUnavailable, cameraFaults, listingSettlement, count.
  destruct (cameraManager (fields w)) as [mgr|];
    [|simpl; rewrite Hp; split; reflexivity].
  destruct (getCameraIdList mgr) as [cameraIds|msg|c msg] eqn:Hids;
    [|simpl; rewrite Hp; split; reflexivity..].
  destruct (firstFault mgr cameraIds) as [[c msg]|];
    [simpl; rewrite Hp; split; reflexivity|].
  split; [reflexivity|].
  exists (readableDescriptors (lensFacing (platform w)) mgr cameraIds).
  split; [reflexivity|]. split; [reflexivity|]. split.
  - intros cameraId ch Hin Hq.
    exists (describeCamera (lensFacing (platform w)) cameraId ch).
    split; [apply readableDescriptors_In; eauto|].
    split; [apply describeCamera_id | apply describeCamera_resolutions].
  - apply Forall_forall. intros d Hd.
    apply readableDescriptors_In in Hd. destruct Hd as (c & ch & Hin & Hq & ->).
    exists c, ch, (describeCamera (lensFacing (platform w)) c ch).
    repeat (split; [assumption || reflexivity|]).
    split; [apply describeCamera_id | apply describeCamera_resolutions].
Qed.

(** On the simulated platform the descriptor of the rear camera carries its
    two sizes. *)
Lemma getAvailableCameras_query_only_simulated :
  exists cameras info,
    effectsOf (getAvailableCameras 9) idle = [PromiseResolve 9 (VArray cameras)] /\
    In (VMap info) cameras /\
    getKey "id" info = Some (VString "0") /\
    getKey "resolutions" info
    = Some (VArray [VMap [("width", VInt 1920); ("height", VInt 1080)];
                    VMap [("width", VInt 640); ("height", VInt 480)]]).
Proof.
  destruct (getAvailableCameras_query_only idle 9)
    as (w' & settlement & Hrun & _ & _ & _ & Htrace & _ & Hcase).
  simpl in Hcase. destruct Hcase as (cameras & -> & _ & Hkept & _).
  destruct (Hkept "0" (mkCharacteristics (Some 1%Z)
                         (Some (mkStreamMap (Some [hd1080; vga])))))
    as (info & Hin & Hid & Hres); [simpl; auto | reflexivity |].
  exists cameras, info. split; [|repeat split; assumption].
  apply effectsOf_of_trace. now rewrite Hrun.
Defined.

(** Rejection exactly when the service is unavailable, as the claim words
    it, fails when a listed camera has vanished: the service answers the
    listing, and the call is rejected all the same. *)
Lemma vanished_camera_rejects_listing :
  ~ spec_rejectsExactlyWhenUnavailable vanished 1.
Proof.
  unfold spec_rejectsExactlyWhenUnavailable. intros [Honly _].
  assert (H : serviceUnavailable vanished = true).
  { apply Honly. vm_compute. discriminate. }
  vm_compute in H. discriminate H.
Qed.

(** C10, as the code has it.  When the camera manager lists its ids and no
    characteristics query throws an unchecked exception, [getAvailableCameras]
    completes and resolves (and does nothing else) with the descriptors of
    exactly those listed cameras whose characteristics can be read, in
    listing order: a camera whose query throws [CameraAccessException] is
    left out and every other listed camera is still described.  A query that
    throws an unchecked exception is not caught per camera: it rejects the
    whole call with UNKNOWN_ERROR and the exception's message.  The promise
    is rejected, once, exactly when the listing fails or such a query
    throws. *)
Theorem faulty_camera_skipped (w : World) (p : Promise) :
  (forall mgr cameraIds,
      cameraManager (fields w) = Some mgr ->
      getCameraIdList mgr = Returns cameraIds ->
      firstFault mgr cameraIds = None ->
      let cameras :=
        readableDescriptors (lensFacing (platform w)) mgr cameraIds in
      completesNormally (getAvailableCameras p w) = true /\
      effectsOf (getAvailableCameras p) w = [PromiseResolve p (VArray cameras)] /\
      (forall cameraId ch,
          In cameraId cameraIds ->
          getCameraCharacteristics mgr cameraId = Returns ch ->
          exists info,
            In (VMap info) cameras /\
            getKey "id" info = Some (VString cameraId)) /\
      (forall cameraId msg d,
          getCameraCharacteristics mgr cameraId = ThrowsCameraAccess msg ->
          In (VMap d) cameras -> getKey "id" d <> Some (VString cameraId)))
  /\
  (forall mgr cameraIds className msg,
      cameraManager (fields w) = Some mgr ->
      getCameraIdList mgr = Returns cameraIds ->
      firstFault mgr cameraIds = Some (className, msg) ->
      completesNormally (getAvailableCameras p w) = true /\
      effectsOf (getAvailableCameras p) w
      = [PromiseReject p "UNKNOWN_ERROR" ("Unexpected error: " ++ msg)])
  /\
  count (isRejectOf p) (effectsOf (getAvailableCameras p) w)
  = (if serviceUnavailable w || cameraFaults w then 1 else 0).
Proof.
  split; [|split].
  - intros mgr cameraIds Hmgr Hids Hfault cameras.
    rewrite getAvailableCameras_cases. split; [reflexivity|]. split.
    + rewrite getAvailableCameras_effects. unfold listingSettlement.
      now rewrite Hmgr, Hids, Hfault.
    + split.
      * intros cameraId ch Hin Hq.
        exists (describeCamera (lensFacing (platform w)) cameraId ch).
        split; [apply readableDescriptors_In; eauto | apply describeCamera_id].
      * intros cameraId msg d Hq Hd Hid.
        apply readableDescriptors_In in Hd.
        destruct Hd as (c & ch & _ & Hq' & E). injection E as ->.
        rewrite describeCamera_id in Hid. congruence.
  - intros mgr cameraIds className msg Hmgr Hids Hfault.
    rewrite getAvailableCameras_cases. split; [reflexivity|].
    rewrite getAvailableCameras_effects. unfold listingSettlement.
    now rewrite Hmgr, Hids, Hfault.
  - rewrite getAvailableCameras_effects.
    unfold serviceUnavailable, cameraFaults, listingSettlement, count.
    destruct (cameraManager (fields w)) as [mgr|];
      [destruct (getCameraIdList mgr) as [ids|msg|c msg];
       [destruct (firstFault mgr ids) as [[c msg]|]|..]|];
      simpl; rewrite ?Nat.eqb_refl; reflexivity.
Qed.

(** On the simulated platform, whose camera "7" throws
    [CameraAccessException], the other two cameras are described and no
    descriptor carries the id "7"; where the second camera has vanished the
    whole listing is rejected. *)
Lemma faulty_camera_skipped_simulated :
  let cameras := readableDescriptors androidLensFacing simulatedManager
                                     ["0"; "7"; "cam-external-1"] in
  effectsOf (getAvailableCameras 9) idle = [PromiseResolve 9 (VArray cameras)] /\
  List.length cameras = 2 /\
  (exists info, In (VMap info) cameras /\
                getKey "id" info = Some (VString "cam-external-1")) /\
  (forall d, In (VMap d) cameras -> getKey "id" d <> Some (VString "7")) /\
  effectsOf (getAvailableCameras 1) vanished
  = [PromiseReject 1 "UNKNOWN_ERROR" "Unexpected error: Unknown camera ID"].
Proof.
  intro cameras.
  destruct (faulty_camera_skipped idle 9) as (Hlisted & _ & _).
  destruct (Hlisted simulatedManager ["0"; "7"; "cam-external-1"]
                    eq_refl eq_refl eq_refl)
    as (_ & Heffects & Hkept & Hskipped).
  split; [exact Heffects|]. split; [reflexivity|]. split; [|split].
  - apply (Hkept "cam-external-1"
             (mkCharacteristics None (Some (mkStreamMap (Some [vga])))));
      [simpl; auto | reflexivity].
  - intro d. apply (Hskipped "7" "CAMERA_DISCONNECTED" d). reflexivity.
  - destruct (faulty_camera_skipped vanished 1) as (_ & Hfault & _).
    destruct (Hfault vanishedManager ["0"; "usb-gone"]
                     "IllegalArgumentException" "Unknown camera ID"
                     eq_refl eq_refl eq_refl) as [_ H].
    exact H.
Defined.

(** A faulty camera never failing the listing, as the claim words it, fails
    for a camera that has vanished: its query throws
    [IllegalArgumentException] and the listing is rejected. *)
Lemma vanished_camera_fails_listing :
  ~ spec_faultyCameraNeverFails vanished 1 vanishedManager ["0"; "usb-gone"].
Proof.
  unfold spec_faultyCameraNeverFails. intro H.
  specialize (H eq_refl eq_refl). vm_compute in H. discriminate H.
Qed.

(** ** Closing *)

Ltac settle_trace := rewrite <- ?app_assoc; simpl; try reflexivity.

Lemma stopBackgroundThread_cases (w : World) :
  stopBackgroundThread w
  = Normal tt
      (mkWorld (platform w)
         (mkFields (cameraManager (fields w)) (cameraDevice (fields w))
                   (captureSession (fields w)) (imageReader (fields w))
                   (threadAfterStop (platform w) (backgroundThread (fields w)))
                   (handlerAfterStop (platform w) (fields w)))
         (nextObject w)
         (trace w ++ stopEffects (platform w) (backgroundThread (fields w)))).
Proof.
  break_world w. unfold stopBackgroundThread, handlerAfterStop. unfold_java.
  simpl. destruct thr as [t|]; simpl.
  - destruct (joinInterrupted pf t); simpl; settle_trace.
  - now rewrite app_nil_r.
Qed.

(** [closeCamera], in full: it always completes. *)
Lemma closeCamera_cases (p : Promise) (w : World) :
  closeCamera p w
  = Normal tt
      (mkWorld (platform w) (afterClose (platform w) (fields w)) (nextObject w)
         (trace w ++ releaseEffects (platform w) (fields w)
                  ++ [closedEvent; closeResolution p])).
Proof.
  unfold closeCamera.
  break_world w. unfold afterClose, releaseEffects, handlerAfterStop.
  destruct ses as [s|], dev as [d|], rdr as [r|]; unfold_java; simpl;
    rewrite stopBackgroundThread_cases; simpl;
    unfold handlerAfterStop, closedEvent, closeResolution, putString; simpl;
    settle_trace.
Qed.

Lemma closeCamera_effects (p : Promise) (w : World) :
  effectsOf (closeCamera p) w
  = releaseEffects (platform w) (fields w) ++ [closedEvent; closeResolution p].
Proof.
  apply effectsOf_of_trace. now rewrite closeCamera_cases.
Qed.








(** ** Computations that send no image *)

Lemma sendsNoImage_ret {A} (a : A) : sendsNoImage (ret a).
Proof. intro w. exists []. simpl. now rewrite app_nil_r. Qed.

Lemma sendsNoImage_throw {A} (e : Throwable) : sendsNoImage (@throw A e).
Proof. intro w. exists []. simpl. now rewrite app_nil_r. Qed.

Lemma sendsNoImage_getFields : sendsNoImage getFields.
Proof. intro w. exists []. simpl. now rewrite app_nil_r. Qed.

Lemma sendsNoImage_getPlatform : sendsNoImage getPlatform.
Proof. intro w. exists []. simpl. now rewrite app_nil_r. Qed.

Lemma sendsNoImage_setFields (f : USBCameraModule -> USBCameraModule) : sendsNoImage (setFields f).
Proof. intro w. exists []. simpl. now rewrite app_nil_r. Qed.

Lemma sendsNoImage_fresh : sendsNoImage fresh.
Proof. intro w. exists []. simpl. now rewrite app_nil_r. Qed.

Lemma sendsNoImage_perform (e : Effect) :
  isImageCaptured e = false -> sendsNoImage (perform e).
Proof.
  intros He w. exists [e]. split; [reflexivity|].
  unfold count. simpl. now rewrite He.
Qed.

Lemma sendsNoImage_deref {A} (o : option A) : sendsNoImage (deref o).
Proof.
  destruct o; [apply sendsNoImage_ret | apply sendsNoImage_throw].
Qed.

Lemma sendsNoImage_checked {A} (c : Checked A) : sendsNoImage (checked c).
Proof.
  destruct c; [apply sendsNoImage_ret | apply sendsNoImage_throw ..].
Qed.

Lemma sendsNoImage_bind {A B} (m : Java A) (k : A -> Java B) :
  sendsNoImage m -> (forall a, sendsNoImage (k a)) -> sendsNoImage (bind m k).
Proof.
  intros Hm Hk w. unfold bind.
  destruct (Hm w) as (l1 & Ht1 & Hc1).
  destruct (m w) as [a w1|e w1]; simpl in Ht1.
  - destruct (Hk a w1) as (l2 & Ht2 & Hc2).
    exists (l1 ++ l2). rewrite Ht2, Ht1, count_app, Hc1, Hc2.
    now rewrite app_assoc.
  - exists l1. now split.
Qed.

Lemma sendsNoImage_try_catch {A} (body : Java A)
    (handler : Throwable -> option (Java A)) :
  sendsNoImage body ->
  (forall e h, handler e = Some h -> sendsNoImage h) ->
  sendsNoImage (try_catch body handler).
Proof.
  intros Hb Hh w. unfold try_catch.
  destruct (Hb w) as (l1 & Ht1 & Hc1).
  destruct (body w) as [a w1|e w1]; simpl in Ht1.
  - exists l1. now split.
  - destruct (handler e) as [h|] eqn:Hhe.
    + destruct (Hh e h Hhe w1) as (l2 & Ht2 & Hc2).
      exists (l1 ++ l2). rewrite Ht2, Ht1, count_app, Hc1, Hc2.
      now rewrite app_assoc.
    + exists l1. now split.
Qed.

(** Walk through a method body. *)
Ltac no_image :=
  repeat first
    [ apply sendsNoImage_ret
    | apply sendsNoImage_throw
    | apply sendsNoImage_getFields
    | apply sendsNoImage_getPlatform
    | apply sendsNoImage_setFields
    | apply sendsNoImage_fresh
    | apply sendsNoImage_deref
    | apply sendsNoImage_checked
    | apply sendsNoImage_perform; reflexivity
    | apply sendsNoImage_bind; [|intro]
    | apply sendsNoImage_try_catch;
      [| let e := fresh "e" in
         let h := fresh "h" in
         let E := fresh "E" in
         intros e h E; destruct e; try discriminate E;
         injection E as <- ]
    | match goal with
      | |- sendsNoImage (match ?x with _ => _ end) => destruct x
      | |- sendsNoImage (if ?b then _ else _) => destruct b
      end ].

Lemma sendsNoImage_forEachCamera K mgr cameraIds :
  forall cameras, sendsNoImage (forEachCamera K mgr cameraIds cameras).
Proof.
  induction cameraIds as [|c rest IH]; intro cameras; simpl; no_image.
  apply IH.
Qed.

Lemma sendsNoImage_getAvailableCameras p : sendsNoImage (getAvailableCameras p).
Proof.
  unfold getAvailableCameras, resolve, rejectWith, reject. no_image.
  apply sendsNoImage_forEachCamera.
Qed.

Lemma sendsNoImage_openCamera cameraId p : sendsNoImage (openCamera cameraId p).
Proof.
  unfold openCamera, startBackgroundThread, resolve, rejectWith, reject. no_image.
Qed.

Lemma sendsNoImage_startPreview width height p :
  sendsNoImage (startPreview width height p).
Proof. unfold startPreview, resolve, rejectWith, reject. no_image. Qed.

Lemma sendsNoImage_captureImage p : sendsNoImage (captureImage p).
Proof. unfold captureImage, resolve, rejectWith, reject. no_image. Qed.

Lemma sendsNoImage_closeCamera p : sendsNoImage (closeCamera p).
Proof.
  unfold closeCamera, stopBackgroundThread, join, resolve, reject, sendEvent.
  no_image.
Qed.

Lemma sendsNoImage_onOpened cameraId p camera :
  sendsNoImage (onOpened cameraId p camera).
Proof. unfold onOpened, resolve, sendEvent. no_image. Qed.

Lemma sendsNoImage_onDisconnected cameraId camera :
  sendsNoImage (onDisconnected cameraId camera).
Proof. unfold onDisconnected, sendEvent. no_image. Qed.

Lemma sendsNoImage_onError cameraId camera error :
  sendsNoImage (onError cameraId camera error).
Proof. unfold onError, sendEvent. no_image. Qed.

Lemma sendsNoImage_onConfigured p session : sendsNoImage (onConfigured p session).
Proof. unfold onConfigured, resolve, reject, sendEvent. no_image. Qed.

Lemma sendsNoImage_onConfigureFailed p session :
  sendsNoImage (onConfigureFailed p session).
Proof. unfold onConfigureFailed, rejectWith, reject. no_image. Qed.

Lemma onImageAvailable_cases (reader : ImageReader) (latest : option Image)
    (w : World) :
  onImageAvailable reader latest w
  = Normal tt
      (mkWorld (platform w) (fields w) (nextObject w)
         (trace w ++
          match latest with
          | Some image => [imageCapturedEvent (platform w) image; ImageClose image]
          | None => []
          end)).
Proof.
  destruct w as [pf m n tr], latest as [image|]; unfold onImageAvailable;
    unfold_java; simpl.
  - unfold imageCapturedEvent, putString. settle_trace.
  - now rewrite app_nil_r.
Qed.

(** One input adds to the log, and adds one image event exactly when it is
    a frame reaching the listener. *)
Lemma step_images (i : Input) (w : World) :
  exists added,
    trace (worldOf (step i w)) = trace w ++ added /\
    count isImageCaptured added = if deliversFrame i then 1 else 0.
Proof.
  destruct i; unfold step, deliversFrame;
    try (first
           [ apply sendsNoImage_getAvailableCameras
           | apply sendsNoImage_openCamera
           | apply sendsNoImage_startPreview
           | apply sendsNoImage_captureImage
           | apply sendsNoImage_closeCamera
           | apply sendsNoImage_onOpened
           | apply sendsNoImage_onDisconnected
           | apply sendsNoImage_onError
           | apply sendsNoImage_onConfigured
           | apply sendsNoImage_onConfigureFailed ]).
  rewrite onImageAvailable_cases. simpl. eexists. split; [reflexivity|].
  destruct latest; reflexivity.
Qed.

Lemma run_images (history : list Input) :
  forall w, exists added,
    trace (worldOf (run history w)) = trace w ++ added /\
    count isImageCaptured added <= framesDelivered history /\
    (completesNormally (run history w) = true ->
     count isImageCaptured added = framesDelivered history).
Proof.
  induction history as [|i rest IH]; intro w; simpl.
  - exists []. rewrite app_nil_r. repeat split; auto.
  - unfold bind. destruct (step_images i w) as (l1 & Ht1 & Hc1).
    unfold framesDelivered. simpl.
    destruct (step i w) as [[] w1|e w1]; simpl in Ht1.
    + destruct (IH w1) as (l2 & Ht2 & Hle & Heq).
      exists (l1 ++ l2). rewrite Ht2, Ht1, app_assoc, count_app, Hc1.
      split; [reflexivity|]. unfold framesDelivered in *.
      destruct (deliversFrame i); simpl; split; try lia;
        intro Hn; specialize (Heq Hn); lia.
    + exists l1. split; [assumption|]. rewrite Hc1.
      destruct (deliversFrame i); simpl; split; try lia; discriminate.
Qed.

(** C3, as the code has it.  [captureImage] itself sends no
    [USBCameraImageCaptured] event; the frame listener sends one for every
    frame that reaches it, whether or not a capture was requested.  So a
    history sends at most as many image events as frames were delivered, and
    exactly as many when it runs to its end: the number of calls to
    [captureImage] plays no part. *)
Theorem image_per_frame (w : World) (history : list Input) :
  (forall p, count isImageCaptured (effectsOf (captureImage p) w) = 0) /\
  (forall reader image,
      effectsOf (onImageAvailable reader (Some image)) w
      = [imageCapturedEvent (platform w) image; ImageClose image]) /\
  count isImageCaptured (effectsOf (run history) w) <= framesDelivered history /\
  (completesNormally (run history w) = true ->
   count isImageCaptured (effectsOf (run history) w) = framesDelivered history).
Proof.
  split.
  { intro p. destruct (sendsNoImage_captureImage p w) as (l & Ht & Hc).
    now rewrite (@effectsOf_of_trace _ _ _ _ Ht). }
  split.
  { intros reader image. apply effectsOf_of_trace.
    now rewrite onImageAvailable_cases. }
  destruct (run_images history w) as (l & Ht & Hle & Heq).
  now rewrite (@effectsOf_of_trace _ _ _ _ Ht).
Qed.

(** During the simulated preview: one capture, then two frames. *)
Lemma image_per_frame_two_frames :
  count isImageCaptured
        (effectsOf (run [CallCaptureImage 3;
                         HwImageAvailable (Reader 1) (frame 1);
                         HwImageAvailable (Reader 1) (frame 2)]) previewing)
  = 2.
Proof.
  destruct (image_per_frame previewing
              [CallCaptureImage 3;
               HwImageAvailable (Reader 1) (frame 1);
               HwImageAvailable (Reader 1) (frame 2)]) as (_ & _ & _ & Heq).
  apply Heq. reflexivity.
Defined.

(** One image per capture, as the specification words it, fails: one
    capture followed by two preview frames yields two image events. *)
Lemma one_capture_two_images :
  ~ spec_oneImagePerCapture previewing
      [CallCaptureImage 3;
       HwImageAvailable (Reader 1) (frame 1);
       HwImageAvailable (Reader 1) (frame 2)].
Proof.
  unfold spec_oneImagePerCapture. vm_compute. discriminate.
Qed.

(** ** Disconnection *)

Lemma onDisconnected_cases (cameraId : string) (camera : CameraDevice)
    (w : World) :
  onDisconnected cameraId camera w
  = Normal tt
      (mkWorld (platform w) (set_cameraDevice None (fields w)) (nextObject w)
               (trace w ++ [DeviceClose camera; disconnectedEvent cameraId])).
Proof.
  destruct w as [pf m n tr]. unfold onDisconnected. unfold_java. simpl.
  unfold disconnectedEvent, putString. settle_trace.
Qed.

Lemma isDeviceClose_refl (camera : CameraDevice) :
  isDeviceClose camera (DeviceClose camera) = true.
Proof. destruct camera as [h]. simpl. apply Nat.eqb_refl. Qed.

(** C5, as the code has it.  The disconnect callback completes; it closes
    the camera it was handed, once, sends one "disconnected" event and nulls
    [cameraDevice].  It leaves the capture session, the image reader and the
    background thread and handler in place, a later [closeCamera] does not
    close that camera again, and a frame that reaches the listener after the
    disconnect still sends an image event. *)
Theorem onDisconnected_partial_teardown (w : World) (cameraId : string)
    (camera : CameraDevice) :
  exists w',
    onDisconnected cameraId camera w = Normal tt w' /\
    effectsOf (onDisconnected cameraId camera) w
    = [DeviceClose camera; disconnectedEvent cameraId] /\
    count (isStatus "disconnected")
          (effectsOf (onDisconnected cameraId camera) w) = 1 /\
    count (isDeviceClose camera)
          (effectsOf (onDisconnected cameraId camera) w) = 1 /\
    cameraDevice (fields w') = None /\
    captureSession (fields w') = captureSession (fields w) /\
    imageReader (fields w') = imageReader (fields w) /\
    backgroundThread (fields w') = backgroundThread (fields w) /\
    backgroundHandler (fields w') = backgroundHandler (fields w) /\
    (forall p, count (isDeviceClose camera) (effectsOf (closeCamera p) w') = 0) /\
    (forall reader image,
        count isImageCaptured
              (effectsOf (onImageAvailable reader (Some image)) w') = 1).
Proof.
  eexists. split; [apply onDisconnected_cases|].
  rewrite (@effectsOf_of_trace _ (onDisconnected cameraId camera) w
             [DeviceClose camera; disconnectedEvent cameraId])
    by now rewrite onDisconnected_cases.
  split; [reflexivity|]. split; [reflexivity|].
  split. { unfold count. cbn [filter]. now rewrite isDeviceClose_refl. }
  simpl. repeat (split; [reflexivity|]). split.
  - intro p. rewrite closeCamera_effects. unfold releaseEffects. simpl.
    destruct (captureSession (fields w)), (imageReader (fields w)),
      (backgroundThread (fields w)) as [t|]; simpl;
      try destruct (joinInterrupted (platform w) t); reflexivity.
  - intros reader image.
    rewrite (@effectsOf_of_trace _ (onImageAvailable reader (Some image)) _
               [imageCapturedEvent (platform w) image; ImageClose image])
      by now rewrite onImageAvailable_cases.
    reflexivity.
Qed.

(** Forced teardown as the specification words it fails in the previewing
    state: after the disconnect the session, the reader and the thread are
    still held, and a queued frame still sends an image event. *)
Lemma disconnect_leaves_session :
  ~ spec_disconnectTearsDown previewing "cam-external-1" (Device 100)
      [HwImageAvailable (Reader 1) (frame 7)].
Proof.
  unfold spec_disconnectTearsDown. intros (_ & _ & Hsession & _).
  vm_compute in Hsession. discriminate Hsession.
Qed.

(** ** Starting the preview *)

Lemma startPreview_cases (width height : Z) (p : Promise) (w : World) :
  startPreview width height p w
  = match cameraDevice (fields w) with
    | None =>
        Normal tt
          (mkWorld (platform w) (fields w) (nextObject w)
             (trace w ++ [PromiseReject p "NO_CAMERA" "No camera is currently open"]))
    | Some d =>
        match newInstanceThrows (platform w) width height with
        | Some msg =>
            Abrupt (UncheckedException "IllegalArgumentException" msg) w
        | None =>
            let r := Reader (nextObject w) in
            let h := backgroundHandler (fields w) in
            let after e :=
              mkWorld (platform w) (set_imageReader (Some r) (fields w))
                      (S (nextObject w))
                      (trace w ++
                       ReaderNew r width height :: ReaderListenerSet r h :: e) in
            match createCaptureSessionRequest (platform w) d with
            | Returns _ => Normal tt (after [CaptureSessionRequested d r p h])
            | ThrowsCameraAccess msg =>
                Normal tt
                  (after [PromiseReject p "CAMERA_ERROR"
                                        ("Error starting preview: " ++ msg)])
            | ThrowsUnchecked className msg =>
                Abrupt (UncheckedException className msg) (after [])
            end
        end
    end.
Proof.
  break_world w. unfold startPreview. unfold_java. simpl.
  destruct dev as [d|]; simpl; [|reflexivity].
  destruct (newInstanceThrows pf width height) as [msg|]; simpl;
    [reflexivity|].
  destruct (createCaptureSessionRequest pf d) as [[]|msg|c msg]; cbv zeta beta;
    simpl; settle_trace.
Qed.

(** C6, as the code has it.  [startPreview] never consults the supported
    resolutions.  With no camera open it rejects with NO_CAMERA and does
    nothing else.  With a camera open it hands the requested width and
    height to [ImageReader.newInstance] as they are.  If that call throws
    (it does for a width or height below 1) the exception is not caught: the
    method ends in it, with nothing done and the promise unsettled.
    Otherwise it creates the reader of the requested size, installs the
    frame listener and asks the platform for a capture session; the promise
    is then rejected only if that platform call throws
    [CameraAccessException], with CAMERA_ERROR, and an unchecked exception
    of that call escapes as well. *)
Theorem startPreview_no_validation (w : World) (width height : Z) (p : Promise) :
  effectsOf (startPreview width height p) w
  = match cameraDevice (fields w) with
    | None => [PromiseReject p "NO_CAMERA" "No camera is currently open"]
    | Some d =>
        match newInstanceThrows (platform w) width height with
        | Some _ => []
        | None =>
            let r := Reader (nextObject w) in
            let h := backgroundHandler (fields w) in
            ReaderNew r width height :: ReaderListenerSet r h ::
            match createCaptureSessionRequest (platform w) d with
            | Returns _ => [CaptureSessionRequested d r p h]
            | ThrowsCameraAccess msg =>
                [PromiseReject p "CAMERA_ERROR"
                               ("Error starting preview: " ++ msg)]
            | ThrowsUnchecked _ _ => []
            end
        end
    end /\
  completesNormally (startPreview width height p w)
  = match cameraDevice (fields w) with
    | None => true
    | Some d =>
        match newInstanceThrows (platform w) width height with
        | Some _ => false
        | None =>
            match createCaptureSessionRequest (platform w) d with
            | ThrowsUnchecked _ _ => false
            | Returns _ | ThrowsCameraAccess _ => true
            end
        end
    end /\
  fields (worldOf (startPreview width height p w))
  = match cameraDevice (fields w) with
    | None => fields w
    | Some _ =>
        match newInstanceThrows (platform w) width height with
        | Some _ => fields w
        | None => set_imageReader (Some (Reader (nextObject w))) (fields w)
        end
    end.
Proof.
  unfold effectsOf. rewrite startPreview_cases. cbv zeta.
  destruct (cameraDevice (fields w)) as [d|];
    [destruct (newInstanceThrows (platform w) width height) as [msg|];
     [|destruct (createCaptureSessionRequest (platform w) d) as [[]|msg|c msg]]|];
    cbn [worldOf trace fields completesNormally];
    rewrite ?skipn_app_exact, ?skipn_length_nil; repeat split; reflexivity.
Qed.

(** Where [ImageReader.newInstance] refuses sizes below 1, as it does on
    Android, a [startPreview] with such a size on an open camera ends in the
    uncaught [IllegalArgumentException]. *)
Lemma startPreview_nonpositive_size :
  startPreview 0 480 2 opened
  = Abrupt (UncheckedException "IllegalArgumentException"
                               "The image dimensions must be positive")
           opened.
Proof. reflexivity. Qed.

(** Resolution validation as the specification words it fails: the open
    microscope offers 640x480 only, yet [startPreview(1920, 1080)] is not
    rejected. *)
Lemma unsupported_resolution_accepted :
  ~ spec_startPreviewValidates opened simulatedManager "cam-external-1"
      1920 1080 2.
Proof.
  unfold spec_startPreviewValidates. intro H.
  specialize (H eq_refl). vm_compute in H. discriminate H.
Qed.

(** ** Opening *)

Lemma openCamera_cases (cameraId : string) (p : Promise) (w : World) :
  openCamera cameraId p w
  = if cameraPermissionGranted (platform w) then
      let t := Thread (nextObject w) in
      let m' := set_backgroundHandler (Some (HandlerOf t))
                  (set_backgroundThread (Some t) (fields w)) in
      let after e :=
        mkWorld (platform w) m' (S (nextObject w))
                (trace w ++ ThreadStart t :: e) in
      match cameraManager (fields w) with
      | None => Abrupt NullPointerException (after [])
      | Some mgr =>
          match openCameraRequest mgr cameraId with
          | Returns _ =>
              Normal tt
                (after [OpenCameraRequested cameraId p (Some (HandlerOf t))])
          | ThrowsCameraAccess msg =>
              Normal tt
                (after [PromiseReject p "CAMERA_ERROR"
                                      ("Failed to open camera: " ++ msg)])
          | ThrowsUnchecked className msg =>
              Abrupt (UncheckedException className msg) (after [])
          end
      end
    else
      Normal tt
        (mkWorld (platform w) (fields w) (nextObject w)
           (trace w ++ [PromiseReject p "PERMISSION_DENIED"
                                      "Camera permission not granted"])).
Proof.
  break_world w. unfold openCamera, startBackgroundThread. unfold_java. simpl.
  destruct (cameraPermissionGranted pf); simpl; [|reflexivity].
  destruct mgr as [mgr|]; simpl; [|reflexivity].
  destruct (openCameraRequest mgr cameraId) as [[]|msg|c msg]; simpl;
    settle_trace.
Qed.

Lemma onOpened_cases (cameraId : string) (p : Promise) (camera : CameraDevice)
    (w : World) :
  onOpened cameraId p camera w
  = Normal tt
      (mkWorld (platform w) (set_cameraDevice (Some camera) (fields w))
         (nextObject w)
         (trace w ++ [openedEvent cameraId;
                      PromiseResolve p (VString "Camera opened successfully")])).
Proof.
  destruct w as [pf m n tr]. unfold onOpened. unfold_java. simpl.
  unfold openedEvent, putString. settle_trace.
Qed.

(** [openCamera] rejects with one of two codes only. *)
Lemma openCamera_reject_codes (cameraId : string) (p q : Promise) (w : World)
    (code message : string) :
  In (PromiseReject q code message) (effectsOf (openCamera cameraId p) w) ->
  code = "PERMISSION_DENIED" \/ code = "CAMERA_ERROR".
Proof.
  unfold effectsOf. rewrite openCamera_cases. cbv zeta.
  destruct (cameraPermissionGranted (platform w)).
  - destruct (cameraManager (fields w)) as [mgr|];
      [destruct (openCameraRequest mgr cameraId) as [[]|msg|c msg]|];
      cbn [worldOf trace]; rewrite skipn_app_exact; simpl;
      intros H; repeat (destruct H as [H|H]; try discriminate H);
      try contradiction.
    injection H as _ <- _. now right.
  - cbn [worldOf trace]. rewrite skipn_app_exact. simpl.
    intros [H|[]]. injection H as _ <- _. now left.
Qed.

(** C1, as the code has it.  [openCamera] does not look at the session
    fields.  When the permission is granted and the platform accepts the
    request, the call is not rejected: it starts a new background thread and
    requests a hardware open, whether or not a camera is already held; the
    held camera stays in [cameraDevice] until the opened callback replaces
    it, and nothing closes it. *)
Theorem openCamera_no_live_guard (w : World) (cameraId : string) (p : Promise)
    (mgr : CameraManager) :
  cameraPermissionGranted (platform w) = true ->
  cameraManager (fields w) = Some mgr ->
  openCameraRequest mgr cameraId = Returns tt ->
  let t := Thread (nextObject w) in
  exists w',
    openCamera cameraId p w = Normal tt w' /\
    effectsOf (openCamera cameraId p) w
    = [ThreadStart t; OpenCameraRequested cameraId p (Some (HandlerOf t))] /\
    count (isRejectOf p) (effectsOf (openCamera cameraId p) w) = 0 /\
    cameraDevice (fields w') = cameraDevice (fields w) /\
    captureSession (fields w') = captureSession (fields w) /\
    imageReader (fields w') = imageReader (fields w) /\
    backgroundThread (fields w') = Some t /\
    forall camera,
      cameraDevice (fields (worldOf (onOpened cameraId p camera w')))
      = Some camera /\
      effectsOf (onOpened cameraId p camera) w'
      = [openedEvent cameraId;
         PromiseResolve p (VString "Camera opened successfully")].
Proof.
  intros Hperm Hmgr Hreq t.
  assert (Heff : effectsOf (openCamera cameraId p) w
                 = [ThreadStart t;
                    OpenCameraRequested cameraId p (Some (HandlerOf t))]).
  { apply effectsOf_of_trace. rewrite openCamera_cases, Hperm, Hmgr, Hreq.
    reflexivity. }
  rewrite Heff, openCamera_cases, Hperm, Hmgr, Hreq.
  eexists. split; [reflexivity|].
  do 6 (split; [reflexivity|]).
  intro camera. rewrite onOpened_cases. split; [reflexivity|].
  apply effectsOf_of_trace. now rewrite onOpened_cases.
Qed.

(** During the simulated preview a second camera is requested. *)
Lemma openCamera_no_live_guard_previewing :
  cameraDevice (fields previewing) = Some (Device 100) /\
  effectsOf (openCamera "0" 5) previewing
  = [ThreadStart (Thread 2);
     OpenCameraRequested "0" 5 (Some (HandlerOf (Thread 2)))].
Proof.
  split; [reflexivity|].
  destruct (@openCamera_no_live_guard previewing "0" 5 simulatedManager
              eq_refl eq_refl eq_refl) as (w' & _ & Heff & _).
  exact Heff.
Defined.

(** Fail-fast open as the specification words it fails in the previewing
    state: the second open is not rejected and reaches the hardware. *)
Lemma second_open_not_rejected : ~ spec_openFailsFast previewing "0" 5.
Proof.
  unfold spec_openFailsFast. intros [Hrejected _].
  vm_compute in Hrejected. discriminate Hrejected.
Qed.

(** ** Capturing *)

Lemma captureImage_no_session (p : Promise) (w : World) :
  captureSession (fields w) = None ->
  captureImage p w
  = Normal tt
      (mkWorld (platform w) (fields w) (nextObject w)
         (trace w ++ [PromiseReject p "NO_SESSION" "No active capture session"])).
Proof.
  intro H. unfold captureImage. unfold_java. now rewrite H.
Qed.

Lemma captureImage_null_device (p : Promise) (w : World)
    (session : CameraCaptureSession) :
  captureSession (fields w) = Some session ->
  cameraDevice (fields w) = None ->
  captureImage p w = Abrupt NullPointerException w.
Proof.
  intros Hs Hd. unfold captureImage. unfold_java. now rewrite Hs, Hd.
Qed.

(** C2, where the code falls short.  After open, opened, startPreview,
    session configured and a disconnect, the capture session is still set
    while [cameraDevice] is null; [captureImage] then neither rejects nor
    resolves its promise but ends in an uncaught [NullPointerException]. *)
Theorem captureImage_after_disconnect :
  captureSession (fields disconnected) = Some (Session 200) /\
  cameraDevice (fields disconnected) = None /\
  captureImage 3 disconnected = Abrupt NullPointerException disconnected /\
  count (isRejectOf 3) (effectsOf (captureImage 3) disconnected) = 0.
Proof. repeat split; reflexivity. Qed.

(* ================================================================= *)
(** * Further properties of the module *)

(** ** The remaining callbacks and paths, case by case *)

Lemma onError_cases (cameraId : string) (camera : CameraDevice) (error : Z)
    (w : World) :
  onError cameraId camera error w
  = Normal tt
      (mkWorld (platform w) (set_cameraDevice None (fields w)) (nextObject w)
               (trace w ++ [DeviceClose camera; errorEvent cameraId error])).
Proof.
  destruct w as [pf m n tr]. unfold onError. unfold_java. simpl.
  unfold errorEvent, putInt, putString. settle_trace.
Qed.

Lemma onConfigured_cases (p : Promise) (session : CameraCaptureSession)
    (w : World) :
  onConfigured p session w
  = let m' := set_captureSession (Some session) (fields w) in
    let refused msg :=
      Normal tt
        (mkWorld (platform w) m' (nextObject w)
           (trace w ++ [PromiseReject p "PREVIEW_ERROR"
                                      ("Failed to start preview: " ++ msg)])) in
    let escapes e :=
      Abrupt e (mkWorld (platform w) m' (nextObject w) (trace w)) in
    match cameraDevice (fields w) with
    | None => escapes NullPointerException
    | Some d =>
        match createCaptureRequest (platform w) d TEMPLATE_PREVIEW with
        | ThrowsCameraAccess msg => refused msg
        | ThrowsUnchecked className msg =>
            escapes (UncheckedException className msg)
        | Returns _ =>
            match imageReader (fields w) with
            | None => escapes NullPointerException
            | Some r =>
                match setRepeatingRequestCall (platform w) session with
                | ThrowsCameraAccess msg => refused msg
                | ThrowsUnchecked className msg =>
                    escapes (UncheckedException className msg)
                | Returns _ =>
                    Normal tt
                      (mkWorld (platform w) m' (nextObject w)
                         (trace w ++
                          [RepeatingRequestSet session r; previewStartedEvent;
                           PromiseResolve p
                             (VString "Preview started successfully")]))
                end
            end
        end
    end.
Proof.
  break_world w. unfold onConfigured. unfold_java. simpl.
  destruct dev as [d|]; simpl; [|reflexivity].
  destruct (createCaptureRequest pf d TEMPLATE_PREVIEW) as [[]|msg|c msg]; simpl;
    [|reflexivity..].
  destruct rdr as [r|]; simpl; [|reflexivity].
  destruct (setRepeatingRequestCall pf session) as [[]|msg|c msg]; simpl;
    [|reflexivity..].
  unfold previewStartedEvent, putString. settle_trace.
Qed.

Lemma captureImage_cases (p : Promise) (w : World) :
  captureImage p w
  = let settled e :=
      Normal tt (mkWorld (platform w) (fields w) (nextObject w) (trace w ++ e)) in
    let refused msg :=
      settled [PromiseReject p "CAPTURE_ERROR"
                             ("Failed to capture image: " ++ msg)] in
    match captureSession (fields w) with
    | None => settled [PromiseReject p "NO_SESSION" "No active capture session"]
    | Some session =>
        match cameraDevice (fields w) with
        | None => Abrupt NullPointerException w
        | Some d =>
            match createCaptureRequest (platform w) d TEMPLATE_STILL_CAPTURE with
            | ThrowsCameraAccess msg => refused msg
            | ThrowsUnchecked className msg =>
                Abrupt (UncheckedException className msg) w
            | Returns _ =>
                match imageReader (fields w) with
                | None => Abrupt NullPointerException w
                | Some r =>
                    match captureCall (platform w) session with
                    | ThrowsCameraAccess msg => refused msg
                    | ThrowsUnchecked className msg =>
                        Abrupt (UncheckedException className msg) w
                    | Returns _ =>
                        settled [CaptureSubmitted session r;
                                 PromiseResolve p
                                   (VString "Image capture initiated")]
                    end
                end
            end
        end
    end.
Proof.
  break_world w. unfold captureImage. unfold_java. simpl.
  destruct ses as [s|]; simpl; [|reflexivity].
  destruct dev as [d|]; simpl; [|reflexivity].
  destruct (createCaptureRequest pf d TEMPLATE_STILL_CAPTURE) as [[]|msg|c msg];
    simpl; [|reflexivity..].
  destruct rdr as [r|]; simpl; [|reflexivity].
  destruct (captureCall pf s) as [[]|msg|c msg]; simpl; [|reflexivity..].
  settle_trace.
Qed.

Lemma effectsOf_normal {A} (m : Java A) (w : World) (a : A) pf f n
    (added : list Effect) :
  m w = Normal a (mkWorld pf f n (trace w ++ added)) -> effectsOf m w = added.
Proof. intro H. apply effectsOf_of_trace. now rewrite H. Qed.
Arguments effectsOf_normal {A m w a pf f n added} _.

Lemma effectsOf_unchanged {A} (m : Java A) (w : World) (c : Completion A) :
  m w = c -> trace (worldOf c) = trace w -> effectsOf m w = [].
Proof.
  intros <- H. apply effectsOf_of_trace. now rewrite H, app_nil_r.
Qed.

(** ** Camera errors *)

(** X1.  The error callback completes; it closes the camera it was handed,
    nulls [cameraDevice] and sends one "error" event that carries the camera
    id and the platform's error code.  It settles no promise and leaves the
    capture session, the image reader and the background thread in place. *)
Theorem onError_reports_and_keeps_session (w : World) (cameraId : string)
    (camera : CameraDevice) (error : Z) :
  completesNormally (onError cameraId camera error w) = true /\
  effectsOf (onError cameraId camera error) w
  = [DeviceClose camera;
     Emit "USBCameraEvent"
          [("cameraId", VString cameraId); ("status", VString "error");
           ("errorCode", VInt error)]] /\
  count isSettlement (effectsOf (onError cameraId camera error) w) = 0 /\
  fields (worldOf (onError cameraId camera error w))
  = set_cameraDevice None (fields w).
Proof.
  rewrite (effectsOf_normal (onError_cases cameraId camera error w)).
  rewrite onError_cases. repeat split; reflexivity.
Qed.

(** X2.  An open that the platform accepts and then answers with an error
    or a disconnect never settles its promise: neither callback resolves or
    rejects anything, and the background thread started for the open is not
    asked to quit. *)
Theorem failed_open_leaves_promise_pending (w : World) (cameraId : string)
    (p : Promise) (mgr : CameraManager) (camera : CameraDevice) (error : Z) :
  cameraPermissionGranted (platform w) = true ->
  cameraManager (fields w) = Some mgr ->
  openCameraRequest mgr cameraId = Returns tt ->
  let t := Thread (nextObject w) in
  let onErr := [CallOpenCamera cameraId p; HwError cameraId camera error] in
  let onDis := [CallOpenCamera cameraId p; HwDisconnected cameraId camera] in
  completesNormally (run onErr w) = true /\
  completesNormally (run onDis w) = true /\
  count isSettlement (effectsOf (run onErr) w) = 0 /\
  count isSettlement (effectsOf (run onDis) w) = 0 /\
  count (isThreadQuit t) (effectsOf (run onErr) w) = 0 /\
  count (isThreadQuit t) (effectsOf (run onDis) w) = 0 /\
  backgroundThread (fields (worldOf (run onErr w))) = Some t /\
  backgroundThread (fields (worldOf (run onDis w))) = Some t.
Proof.
  intros Hperm Hmgr Hreq t onErr onDis.
  assert (HE : run onErr w
               = Normal tt
                   (mkWorld (platform w)
                      (set_cameraDevice None
                         (set_backgroundHandler (Some (HandlerOf t))
                            (set_backgroundThread (Some t) (fields w))))
                      (S (nextObject w))
                      (trace w ++
                       [ThreadStart t;
                        OpenCameraRequested cameraId p (Some (HandlerOf t));
                        DeviceClose camera; errorEvent cameraId error]))).
  { unfold onErr, run, step. unfold bind at 1.
    rewrite openCamera_cases, Hperm, Hmgr, Hreq. cbv zeta.
    unfold bind. rewrite onError_cases. unfold ret. simpl.
    now rewrite <- app_assoc. }
  assert (HD : run onDis w
               = Normal tt
                   (mkWorld (platform w)
                      (set_cameraDevice None
                         (set_backgroundHandler (Some (HandlerOf t))
                            (set_backgroundThread (Some t) (fields w))))
                      (S (nextObject w))
                      (trace w ++
                       [ThreadStart t;
                        OpenCameraRequested cameraId p (Some (HandlerOf t));
                        DeviceClose camera; disconnectedEvent cameraId]))).
  { unfold onDis, run, step. unfold bind at 1.
    rewrite openCamera_cases, Hperm, Hmgr, Hreq. cbv zeta.
    unfold bind. rewrite onDisconnected_cases. unfold ret. simpl.
    now rewrite <- app_assoc. }
  rewrite (effectsOf_normal HE), (effectsOf_normal HD), HE, HD.
  repeat split; reflexivity.
Qed.

(** On the simulated platform: open the microscope, then a camera error. *)
Lemma failed_open_leaves_promise_pending_idle :
  count isSettlement
        (effectsOf (run [CallOpenCamera "cam-external-1" 1;
                         HwError "cam-external-1" (Device 100) 4]) idle) = 0.
Proof.
  destruct (@failed_open_leaves_promise_pending idle "cam-external-1" 1
              simulatedManager (Device 100) 4 eq_refl eq_refl eq_refl)
    as (_ & _ & H & _).
  exact H.
Defined.

(** ** Session configuration *)

(** Reduce [effectsOf] once the completion is known. *)
Ltac effects_known :=
  unfold effectsOf; cbn [worldOf trace];
  rewrite ?skipn_app_exact, ?skipn_length_nil.

(** X3.  Whatever happens in the configured callback, the session it was
    handed is stored in [captureSession]: also when the preview request is
    refused and the promise rejected with PREVIEW_ERROR, and also when a
    field it needs is null and a [NullPointerException] escapes.  The
    "preview_started" event is sent exactly when the promise is resolved,
    the promise is settled once unless the exception escapes, and the
    callback never closes a device, a session or a reader. *)
Theorem onConfigured_always_stores_session (w : World) (p : Promise)
    (session : CameraCaptureSession) :
  let added := effectsOf (onConfigured p session) w in
  captureSession (fields (worldOf (onConfigured p session w))) = Some session /\
  count (isStatus "preview_started") added = count (isResolveOf p) added /\
  settlementsOf p added
  = (if completesNormally (onConfigured p session w) then 1 else 0) /\
  count isHandleClose added = 0.
Proof.
  unfold effectsOf. rewrite onConfigured_cases. cbv zeta.
  assert (Hp : Nat.eqb p p = true) by apply Nat.eqb_refl.
  destruct (cameraDevice (fields w)) as [d|];
    [destruct (createCaptureRequest (platform w) d TEMPLATE_PREVIEW)
       as [[]|?|? ?];
     [destruct (imageReader (fields w)) as [r|];
      [destruct (setRepeatingRequestCall (platform w) session)
         as [[]|?|? ?]|]| |]|];
    cbn [worldOf trace fields completesNormally];
    rewrite ?skipn_app_exact, ?skipn_length_nil;
    unfold settlementsOf, count; simpl; rewrite ?Hp; repeat split; reflexivity.
Qed.



(** ** Resources that are overwritten *)

Lemma isReaderClose_refl (r : ImageReader) : isReaderClose r (ReaderClose r) = true.
Proof. destruct r as [h]. simpl. apply Nat.eqb_refl. Qed.

Lemma isThreadQuit_refl (t : HandlerThread) :
  isThreadQuit t (ThreadQuitSafely t) = true.
Proof. destruct t as [h]. simpl. apply Nat.eqb_refl. Qed.

(** X5.  [startPreview] creates a new image reader each time and never
    closes the one it replaces.  With a camera open, two calls whose sizes
    [ImageReader.newInstance] accepts (it throws for a width or height below
    1) and whose session request ends in no unchecked exception, followed by
    [closeCamera], create two readers and close only the second: the first,
    and any reader held before, is never closed. *)
Theorem startPreview_twice_orphans_reader (w : World) (d : CameraDevice)
    (w1 h1 w2 h2 : Z) (p1 p2 q : Promise) :
  cameraDevice (fields w) = Some d ->
  newInstanceThrows (platform w) w1 h1 = None ->
  newInstanceThrows (platform w) w2 h2 = None ->
  (forall className msg,
     createCaptureSessionRequest (platform w) d
     <> ThrowsUnchecked className msg) ->
  let history := [CallStartPreview w1 h1 p1; CallStartPreview w2 h2 p2;
                  CallCloseCamera q] in
  let n := nextObject w in
  completesNormally (run history w) = true /\
  count isReaderNew (effectsOf (run history) w) = 2 /\
  count (isReaderClose (Reader (S n))) (effectsOf (run history) w) = 1 /\
  forall h, h <> S n ->
            count (isReaderClose (Reader h)) (effectsOf (run history) w) = 0.
Proof.
  intros Hd Hsize1 Hsize2 Hsafe history n. unfold history, run, step.
  assert (Hrun :
    exists e1 e2 f,
      (bind (startPreview w1 h1 p1)
         (fun _ => bind (startPreview w2 h2 p2)
            (fun _ => bind (closeCamera q) (fun _ => ret tt)))) w
      = Normal tt
          (mkWorld (platform w) f (S (S n))
             (trace w ++
              [ReaderNew (Reader n) w1 h1;
               ReaderListenerSet (Reader n) (backgroundHandler (fields w)); e1;
               ReaderNew (Reader (S n)) w2 h2;
               ReaderListenerSet (Reader (S n)) (backgroundHandler (fields w));
               e2]
              ++ match captureSession (fields w) with
                 | Some s => [SessionClose s] | None => [] end
              ++ [DeviceClose d; ReaderClose (Reader (S n))]
              ++ stopEffects (platform w) (backgroundThread (fields w))
              ++ [closedEvent; closeResolution q]))
      /\ isReaderNew e1 = false /\ isReaderNew e2 = false
      /\ (forall r, isReaderClose r e1 = false)
      /\ (forall r, isReaderClose r e2 = false)).
  { unfold bind at 1. rewrite startPreview_cases, Hd, Hsize1. cbv zeta.
    destruct (createCaptureSessionRequest (platform w) d)
      as [[]|msg|className msg] eqn:Hreq;
      [| |exfalso; exact (Hsafe className msg eq_refl)];
      (unfold bind at 1; rewrite startPreview_cases;
       cbn [fields platform nextObject trace]; unfold set_imageReader at 1;
       cbn [cameraDevice]; rewrite Hd, Hsize2, Hreq; cbv zeta;
       unfold bind at 1; rewrite closeCamera_cases; unfold ret;
       cbn [fields platform nextObject trace backgroundHandler set_imageReader];
       eexists _, _, _; split;
       [unfold releaseEffects, set_imageReader;
        cbn [captureSession cameraDevice imageReader backgroundThread];
        rewrite Hd; rewrite <- !app_assoc; simpl; reflexivity
       |repeat split; intros; reflexivity]). }
  destruct Hrun as (e1 & e2 & f & Hrun & Hn1 & Hn2 & Hc1 & Hc2).
  rewrite (effectsOf_normal Hrun), Hrun. split; [reflexivity|].
  assert (Hn : Nat.eqb (S n) (S n) = true) by apply Nat.eqb_refl.
  split; [|split; [|intros h Hh;
                    assert (Hne : Nat.eqb (S n) h = false)
                      by (apply Nat.eqb_neq; congruence)]];
    destruct (captureSession (fields w)) as [s|],
             (backgroundThread (fields w)) as [t|];
    cbn [stopEffects]; try destruct (joinInterrupted (platform w) t);
    unfold count; cbn [filter app isReaderNew isReaderClose];
    rewrite ?Hn1, ?Hn2, ?Hc1, ?Hc2, ?Hn, ?Hne; reflexivity.
Qed.

(** With the microscope open: two previews, then close. *)
Lemma startPreview_twice_orphans_reader_opened :
  count (isReaderClose (Reader 1))
        (effectsOf (run [CallStartPreview 1920 1080 2; CallStartPreview 640 480 3;
                         CallCloseCamera 4]) opened) = 0.
Proof.
  assert (Hsafe : forall className msg,
             createCaptureSessionRequest (platform opened) (Device 100)
             <> ThrowsUnchecked className msg)
    by (intros className msg E; vm_compute in E; discriminate E).
  destruct (@startPreview_twice_orphans_reader opened (Device 100)
              1920 1080 640 480 2 3 4 eq_refl eq_refl eq_refl Hsafe)
    as (_ & _ & _ & H).
  apply H. intro E. vm_compute in E. discriminate E.
Defined.

(** X6.  Once the permission check has passed, [openCamera] starts a new
    background thread before it asks the platform, also when the platform
    then refuses or throws, and it never asks the thread it replaces to
    quit.  An open followed by [closeCamera] starts one thread and quits
    that one only: a thread held before is left running.  If the platform's
    open call ends in an unchecked exception, that exception escapes
    [openCamera] with the new thread started and the promise unsettled. *)
Theorem openCamera_orphans_thread (w : World) (cameraId : string)
    (p q : Promise) (mgr : CameraManager) :
  cameraPermissionGranted (platform w) = true ->
  cameraManager (fields w) = Some mgr ->
  let history := [CallOpenCamera cameraId p; CallCloseCamera q] in
  let n := nextObject w in
  count isThreadStart (effectsOf (openCamera cameraId p) w) = 1 /\
  backgroundThread (fields (worldOf (openCamera cameraId p w)))
  = Some (Thread n) /\
  (forall h, h <> n ->
             count (isThreadQuit (Thread h)) (effectsOf (run history) w) = 0) /\
  match openCameraRequest mgr cameraId with
  | ThrowsUnchecked className msg =>
      completesNormally (openCamera cameraId p w) = false /\
      effectsOf (openCamera cameraId p) w = [ThreadStart (Thread n)]
  | Returns _ | ThrowsCameraAccess _ =>
      completesNormally (run history w) = true /\
      count (isThreadQuit (Thread n)) (effectsOf (run history) w) = 1
  end.
Proof.
  intros Hperm Hmgr history n. unfold history, run, step.
  assert (Hn : Nat.eqb n n = true) by apply Nat.eqb_refl.
  pose proof (openCamera_cases cameraId p w) as Hopen.
  rewrite Hperm, Hmgr in Hopen. cbv zeta beta in Hopen. fold n in Hopen.
  destruct (openCameraRequest mgr cameraId) as [[]|msg|className msg].
  1, 2:
    match type of Hopen with
    | _ = Normal tt (mkWorld _ ?f _ (_ ++ _ :: ?e)) =>
        assert (Hrun :
          (bind (openCamera cameraId p)
             (fun _ => bind (closeCamera q) (fun _ => ret tt))) w
          = Normal tt
              (mkWorld (platform w) (afterClose (platform w) f) (S n)
                 (trace w ++ (ThreadStart (Thread n) :: e)
                  ++ releaseEffects (platform w) f
                  ++ [closedEvent; closeResolution q])))
          by (unfold bind at 1; rewrite Hopen; unfold bind at 1;
              rewrite closeCamera_cases; unfold ret; simpl;
              now rewrite <- !app_assoc)
    end;
    rewrite (effectsOf_normal Hrun), (effectsOf_normal Hopen), Hrun, Hopen;
    split; [reflexivity|]; split; [reflexivity|];
    unfold releaseEffects, set_backgroundHandler, set_backgroundThread;
    cbn [captureSession cameraDevice imageReader backgroundThread];
    (split; [intros h Hh;
             assert (Hne : Nat.eqb n h = false)
               by (apply Nat.eqb_neq; congruence)
            |split; [reflexivity|]]);
    destruct (captureSession (fields w)), (cameraDevice (fields w)),
             (imageReader (fields w));
    cbn [stopEffects]; destruct (joinInterrupted (platform w) (Thread n));
    unfold count; cbn [filter app isThreadQuit];
    rewrite ?Hn, ?Hne; reflexivity.
  assert (Hrun :
    (bind (openCamera cameraId p)
       (fun _ => bind (closeCamera q) (fun _ => ret tt))) w
    = openCamera cameraId p w)
    by (unfold bind at 1; now rewrite Hopen).
  assert (He : effectsOf (openCamera cameraId p) w = [ThreadStart (Thread n)])
    by (apply effectsOf_of_trace; now rewrite Hopen).
  assert (Hr : effectsOf
                 (bind (openCamera cameraId p)
                    (fun _ => bind (closeCamera q) (fun _ => ret tt))) w
               = [ThreadStart (Thread n)])
    by (apply effectsOf_of_trace; now rewrite Hrun, Hopen).
  rewrite Hr, He, Hopen. repeat split; reflexivity.
Qed.

(** During the simulated preview: the thread of the first open survives a
    second open followed by close. *)
Lemma openCamera_orphans_thread_previewing :
  backgroundThread (fields previewing) = Some (Thread 0) /\
  count (isThreadQuit (Thread 0))
        (effectsOf (run [CallOpenCamera "0" 5; CallCloseCamera 6]) previewing)
  = 0.
Proof.
  split; [reflexivity|].
  destruct (@openCamera_orphans_thread previewing "0" 5 6 simulatedManager
              eq_refl eq_refl) as (_ & _ & H & _).
  apply H. intro E. vm_compute in E. discriminate E.
Defined.

(** X7.  [openCamera] checks the permission before anything else: without
    it the promise is rejected with PERMISSION_DENIED and nothing else
    happens, no thread is started and no field changes, even if the module
    has no camera manager.  With the permission but without a camera
    manager the call starts its thread and then ends in an uncaught
    [NullPointerException], its promise unsettled. *)
Theorem openCamera_permission_first (w : World) (cameraId : string)
    (p : Promise) :
  (cameraPermissionGranted (platform w) = false ->
   completesNormally (openCamera cameraId p w) = true /\
   effectsOf (openCamera cameraId p) w
   = [PromiseReject p "PERMISSION_DENIED" "Camera permission not granted"] /\
   fields (worldOf (openCamera cameraId p w)) = fields w /\
   nextObject (worldOf (openCamera cameraId p w)) = nextObject w)
  /\
  (cameraPermissionGranted (platform w) = true ->
   cameraManager (fields w) = None ->
   completesNormally (openCamera cameraId p w) = false /\
   effectsOf (openCamera cameraId p) w = [ThreadStart (Thread (nextObject w))] /\
   backgroundThread (fields (worldOf (openCamera cameraId p w)))
   = Some (Thread (nextObject w))).
Proof.
  split.
  - intro Hperm. unfold effectsOf. rewrite openCamera_cases, Hperm.
    effects_known. repeat split; reflexivity.
  - intros Hperm Hmgr. unfold effectsOf.
    rewrite openCamera_cases, Hperm, Hmgr. cbv zeta.
    effects_known. repeat split; reflexivity.
Qed.

(** Without permission and without camera service; and with the permission
    but without camera service. *)
Lemma openCamera_permission_first_bare :
  effectsOf (openCamera "0" 1) (newModule barePlatform)
  = [PromiseReject 1 "PERMISSION_DENIED" "Camera permission not granted"] /\
  effectsOf (openCamera "0" 1) (newModule unservedPlatform)
  = [ThreadStart (Thread 0)].
Proof.
  split.
  - destruct (openCamera_permission_first (newModule barePlatform) "0" 1)
      as [Hdenied _].
    destruct (Hdenied eq_refl) as (_ & H & _). exact H.
  - destruct (openCamera_permission_first (newModule unservedPlatform) "0" 1)
      as [_ Hunserved].
    destruct (Hunserved eq_refl eq_refl) as (_ & H & _). exact H.
Defined.

(** ** Capturing and closing *)

(** X8.  [captureImage] never changes a field of the module and creates no
    object.  Its [catch] takes [CameraAccessException] only, so it ends in
    an uncaught exception exactly when a capture session is set and one of
    these holds: [cameraDevice] is null; building the capture request throws
    an unchecked exception; or the request is built and either [imageReader]
    is null or [capture] throws an unchecked exception, as it does with
    [IllegalStateException] on a session that is no longer active.  In every
    other case it settles its promise exactly once.  It never closes
    anything. *)
Theorem captureImage_reads_only (w : World) (p : Promise) :
  fields (worldOf (captureImage p w)) = fields w /\
  nextObject (worldOf (captureImage p w)) = nextObject w /\
  completesNormally (captureImage p w) = negb (captureFaults w) /\
  settlementsOf p (effectsOf (captureImage p) w)
  = (if captureFaults w then 0 else 1) /\
  count isSettlement (effectsOf (captureImage p) w)
  = (if captureFaults w then 0 else 1) /\
  count isHandleClose (effectsOf (captureImage p) w) = 0.
Proof.
  unfold effectsOf, captureFaults. rewrite captureImage_cases. cbv zeta.
  assert (Hp : Nat.eqb p p = true) by apply Nat.eqb_refl.
  destruct (captureSession (fields w)) as [s|];
    [destruct (cameraDevice (fields w)) as [d|];
     [destruct (createCaptureRequest (platform w) d TEMPLATE_STILL_CAPTURE)
        as [[]|?|? ?];
      [destruct (imageReader (fields w)) as [r|];
       [destruct (captureCall (platform w) s) as [[]|?|? ?]|]| |]|]|];
    effects_known; unfold settlementsOf, count; simpl; rewrite ?Hp;
    repeat split; reflexivity.
Qed.

(** X9.  Whatever the state before, after [closeCamera] a [captureImage] is
    rejected with NO_SESSION and a [startPreview] with NO_CAMERA, each doing
    nothing else. *)
Theorem closed_module_rejects (w : World) (p q : Promise) (width height : Z) :
  let closed := worldOf (closeCamera p w) in
  effectsOf (captureImage q) closed
  = [PromiseReject q "NO_SESSION" "No active capture session"] /\
  fields (worldOf (captureImage q closed)) = fields closed /\
  effectsOf (startPreview width height q) closed
  = [PromiseReject q "NO_CAMERA" "No camera is currently open"] /\
  fields (worldOf (startPreview width height q closed)) = fields closed.
Proof.
  cbv zeta. rewrite closeCamera_cases. cbn [worldOf].
  unfold effectsOf. rewrite captureImage_cases, startPreview_cases.
  cbn [fields afterClose captureSession cameraDevice]. cbv zeta.
  effects_known. repeat split; reflexivity.
Qed.

(** ** Promises *)

Lemma onConfigureFailed_cases (p : Promise) (session : CameraCaptureSession)
    (w : World) :
  onConfigureFailed p session w
  = Normal tt
      (mkWorld (platform w) (fields w) (nextObject w)
         (trace w ++ [PromiseReject p "SESSION_ERROR"
                                    "Failed to configure capture session"])).
Proof. reflexivity. Qed.

Ltac split_cases :=
  repeat match goal with
         | |- context [match ?x with _ => _ end] => destruct x
         end.

(** X10.  One call of a method, or one invocation of a callback, settles at
    most one promise, and only its own: the promise passed to the method or
    captured by the callback.  The disconnect, error and frame callbacks
    settle none. *)
Theorem settles_own_promise_at_most_once (i : Input) (w : World) :
  count isSettlement (effectsOf (step i) w) <= 1 /\
  count isSettlement (effectsOf (step i) w)
  = match promiseOf i with
    | Some p => settlementsOf p (effectsOf (step i) w)
    | None => 0
    end.
Proof.
  destruct i as [p|cameraId p|width height p|p|p|cameraId p camera
                 |cameraId camera|cameraId camera error|p session|p session
                 |reader latest];
    unfold step, promiseOf; try pose proof (Nat.eqb_refl p) as Hp.
  - rewrite getAvailableCameras_effects. unfold listingSettlement.
    split_cases; unfold settlementsOf, count; simpl; rewrite Hp; auto.
  - unfold effectsOf. rewrite openCamera_cases. cbv zeta.
    split_cases; effects_known; unfold settlementsOf, count; simpl;
      rewrite ?Hp; auto.
  - unfold effectsOf. rewrite startPreview_cases. cbv zeta.
    split_cases; effects_known; unfold settlementsOf, count; simpl;
      rewrite ?Hp; auto.
  - unfold effectsOf. rewrite captureImage_cases. cbv zeta.
    split_cases; effects_known; unfold settlementsOf, count; simpl;
      rewrite ?Hp; auto.
  - rewrite closeCamera_effects. unfold releaseEffects, stopEffects.
    split_cases; unfold settlementsOf, count; simpl; rewrite Hp; auto.
  - rewrite (effectsOf_normal (onOpened_cases cameraId p camera w)).
    unfold settlementsOf, count; simpl; rewrite Hp; auto.
  - rewrite (effectsOf_normal (onDisconnected_cases cameraId camera w)).
    unfold count; simpl; auto.
  - rewrite (effectsOf_normal (onError_cases cameraId camera error w)).
    unfold count; simpl; auto.
  - unfold effectsOf. rewrite onConfigured_cases. cbv zeta.
    split_cases; effects_known; unfold settlementsOf, count; simpl;
      rewrite ?Hp; auto.
  - rewrite (effectsOf_normal (onConfigureFailed_cases p session w)).
    unfold settlementsOf, count; simpl; rewrite Hp; auto.
  - rewrite (effectsOf_normal (onImageAvailable_cases reader latest w)).
    destruct latest; unfold count; simpl; auto.
Qed.

(** ** What the module sends to the host *)

Section AddsOnly.
Variable P : Effect -> bool.

Lemma addsOnly_nothing {A} (m : Java A) :
  (forall w, trace (worldOf (m w)) = trace w) -> addsOnly P m.
Proof. intros H w. exists []. rewrite H, app_nil_r. now split. Qed.

Lemma addsOnly_ret {A} (a : A) : addsOnly P (ret a).
Proof. now apply addsOnly_nothing. Qed.

Lemma addsOnly_throw {A} (e : Throwable) : addsOnly P (@throw A e).
Proof. now apply addsOnly_nothing. Qed.

Lemma addsOnly_getFields : addsOnly P getFields.
Proof. now apply addsOnly_nothing. Qed.

Lemma addsOnly_getPlatform : addsOnly P getPlatform.
Proof. now apply addsOnly_nothing. Qed.

Lemma addsOnly_setFields (f : USBCameraModule -> USBCameraModule) :
  addsOnly P (setFields f).
Proof. now apply addsOnly_nothing. Qed.

Lemma addsOnly_fresh : addsOnly P fresh.
Proof. now apply addsOnly_nothing. Qed.

Lemma addsOnly_deref {A} (o : option A) : addsOnly P (deref o).
Proof. destruct o; [apply addsOnly_ret | apply addsOnly_throw]. Qed.

Lemma addsOnly_checked {A} (c : Checked A) : addsOnly P (checked c).
Proof. destruct c; [apply addsOnly_ret | apply addsOnly_throw ..]. Qed.

Lemma addsOnly_perform (e : Effect) : P e = true -> addsOnly P (perform e).
Proof.
  intros He w. exists [e]. split; [reflexivity|]. simpl. now rewrite He.
Qed.

Lemma addsOnly_bind {A B} (m : Java A) (k : A -> Java B) :
  addsOnly P m -> (forall a, addsOnly P (k a)) -> addsOnly P (bind m k).
Proof.
  intros Hm Hk w. unfold bind.
  destruct (Hm w) as (l1 & Ht1 & Hp1).
  destruct (m w) as [a w1|e w1]; simpl in Ht1.
  - destruct (Hk a w1) as (l2 & Ht2 & Hp2).
    exists (l1 ++ l2). rewrite Ht2, Ht1, forallb_app, Hp1, Hp2.
    now rewrite app_assoc.
  - exists l1. now split.
Qed.

Lemma addsOnly_try_catch {A} (body : Java A)
    (handler : Throwable -> option (Java A)) :
  addsOnly P body ->
  (forall e h, handler e = Some h -> addsOnly P h) ->
  addsOnly P (try_catch body handler).
Proof.
  intros Hb Hh w. unfold try_catch.
  destruct (Hb w) as (l1 & Ht1 & Hp1).
  destruct (body w) as [a w1|e w1]; simpl in Ht1.
  - exists l1. now split.
  - destruct (handler e) as [h|] eqn:Hhe.
    + destruct (Hh e h Hhe w1) as (l2 & Ht2 & Hp2).
      exists (l1 ++ l2). rewrite Ht2, Ht1, forallb_app, Hp1, Hp2.
      now rewrite app_assoc.
    + exists l1. now split.
Qed.

Lemma addsOnly_forEachCamera K mgr cameraIds :
  forall cameras, addsOnly P (forEachCamera K mgr cameraIds cameras).
Proof.
  intro cameras. apply addsOnly_nothing. intro w.
  now rewrite forEachCamera_world.
Qed.

Lemma addsOnly_run (history : list Input) :
  (forall i, addsOnly P (step i)) -> addsOnly P (run history).
Proof.
  intro Hstep. induction history as [|i rest IH]; simpl.
  - apply addsOnly_ret.
  - apply addsOnly_bind; [apply Hstep | intro; exact IH].
Qed.
End AddsOnly.

(** Walk through a method body, checking each effect it performs. *)
Ltac adds_only :=
  repeat first
    [ apply addsOnly_ret
    | apply addsOnly_throw
    | apply addsOnly_getFields
    | apply addsOnly_getPlatform
    | apply addsOnly_setFields
    | apply addsOnly_fresh
    | apply addsOnly_deref
    | apply addsOnly_checked
    | apply addsOnly_forEachCamera
    | apply addsOnly_perform; reflexivity
    | apply addsOnly_bind; [|intro]
    | apply addsOnly_try_catch;
      [| let e := fresh "e" in
         let h := fresh "h" in
         let E := fresh "E" in
         intros e h E; destruct e; try discriminate E;
         injection E as <- ]
    | match goal with
      | |- addsOnly _ (match ?x with _ => _ end) => destruct x
      | |- addsOnly _ (if ?b then _ else _) => destruct b
      end ].

Lemma prefix_append (p s : string) : String.prefix p (p ++ s) = true.
Proof.
  induction p as [|a p IH]; simpl; [now destruct s|].
  destruct (Ascii.ascii_dec a a) as [_|Hne]; [exact IH | now elim Hne].
Qed.

Lemma step_wellFormed (i : Input) : addsOnly wellFormedEvent (step i).
Proof.
  destruct i; unfold step.
  - unfold getAvailableCameras, resolve, rejectWith, reject. adds_only.
  - unfold openCamera, startBackgroundThread, rejectWith, reject. adds_only.
  - unfold startPreview, rejectWith, reject. adds_only.
  - unfold captureImage, resolve, rejectWith, reject. adds_only.
  - unfold closeCamera, stopBackgroundThread, join, resolve, sendEvent.
    adds_only.
  - unfold onOpened, resolve, sendEvent. adds_only.
  - unfold onDisconnected, sendEvent. adds_only.
  - unfold onError, sendEvent. adds_only.
  - unfold onConfigured, resolve, rejectWith, reject, sendEvent. adds_only.
  - unfold onConfigureFailed, rejectWith, reject. adds_only.
  - unfold onImageAvailable, sendEvent. adds_only.
    apply addsOnly_perform. unfold wellFormedEvent, putString, createMap.
    cbn [app getKey String.eqb Ascii.eqb Bool.eqb].
    now rewrite prefix_append.
Qed.

(** X11.  In every history, every event the module sends to the host is
    either a [USBCameraEvent] whose [status] is one of "opened",
    "disconnected", "error", "preview_started" and "closed", or a
    [USBCameraImageCaptured] whose [imageData] starts with
    "data:image/jpeg;base64," and whose [source] is "usb_microscope". *)
Theorem events_well_formed (history : list Input) (w : World) :
  forallb wellFormedEvent (effectsOf (run history) w) = true.
Proof.
  destruct (addsOnly_run history step_wellFormed w) as (added & Ht & Hp).
  now rewrite (@effectsOf_of_trace _ _ _ _ Ht).
Qed.

(** ** A whole session *)

(** X12.  On a platform that accepts every request of the sequence, the
    reader's size included ([ImageReader.newInstance] throws for a width or
    height below 1), the sequence open, opened, startPreview, session
    configured, close completes and releases exactly what it acquired, in
    the order session, camera, reader, thread:
    the capture session handed to the configured callback, the camera handed
    to the opened callback, the image reader and the background thread it
    created; afterwards all five session fields are null. *)
Theorem session_releases_what_it_acquired (w : World) (cameraId : string)
    (p1 p2 p3 : Promise) (camera : CameraDevice)
    (session : CameraCaptureSession) (width height : Z) (mgr : CameraManager) :
  cameraPermissionGranted (platform w) = true ->
  cameraManager (fields w) = Some mgr ->
  openCameraRequest mgr cameraId = Returns tt ->
  newInstanceThrows (platform w) width height = None ->
  createCaptureSessionRequest (platform w) camera = Returns tt ->
  createCaptureRequest (platform w) camera TEMPLATE_PREVIEW = Returns tt ->
  setRepeatingRequestCall (platform w) session = Returns tt ->
  joinInterrupted (platform w) (Thread (nextObject w)) = false ->
  let t := Thread (nextObject w) in
  let r := Reader (S (nextObject w)) in
  let history := [CallOpenCamera cameraId p1; HwOpened cameraId p1 camera;
                  CallStartPreview width height p2; HwConfigured p2 session;
                  CallCloseCamera p3] in
  completesNormally (run history w) = true /\
  effectsOf (run history) w
  = [ThreadStart t;
     OpenCameraRequested cameraId p1 (Some (HandlerOf t));
     openedEvent cameraId;
     PromiseResolve p1 (VString "Camera opened successfully");
     ReaderNew r width height;
     ReaderListenerSet r (Some (HandlerOf t));
     CaptureSessionRequested camera r p2 (Some (HandlerOf t));
     RepeatingRequestSet session r;
     previewStartedEvent;
     PromiseResolve p2 (VString "Preview started successfully");
     SessionClose session; DeviceClose camera; ReaderClose r;
     ThreadQuitSafely t; ThreadJoined t;
     closedEvent; closeResolution p3] /\
  fields (worldOf (run history w))
  = mkFields (Some mgr) None None None None None.
Proof.
  intros Hperm Hmgr Hopen Hsize Hses Hreq Hrep Hjoin t r history.
  assert (Hrun :
    run history w
    = Normal tt
        (mkWorld (platform w) (mkFields (Some mgr) None None None None None)
           (S (S (nextObject w)))
           (trace w ++
            [ThreadStart t;
             OpenCameraRequested cameraId p1 (Some (HandlerOf t));
             openedEvent cameraId;
             PromiseResolve p1 (VString "Camera opened successfully");
             ReaderNew r width height;
             ReaderListenerSet r (Some (HandlerOf t));
             CaptureSessionRequested camera r p2 (Some (HandlerOf t));
             RepeatingRequestSet session r;
             previewStartedEvent;
             PromiseResolve p2 (VString "Preview started successfully");
             SessionClose session; DeviceClose camera; ReaderClose r;
             ThreadQuitSafely t; ThreadJoined t;
             closedEvent; closeResolution p3]))).
  { unfold history, run, step.
    unfold bind at 1. rewrite openCamera_cases, Hperm, Hmgr, Hopen. cbv zeta.
    unfold bind at 1. rewrite onOpened_cases.
    unfold bind at 1. rewrite startPreview_cases.
    unfold set_cameraDevice, set_backgroundHandler, set_backgroundThread.
    cbn [fields platform nextObject trace cameraDevice backgroundHandler].
    rewrite Hsize, Hses. cbv zeta.
    unfold bind at 1. rewrite onConfigured_cases.
    unfold set_imageReader.
    cbn [fields platform nextObject trace cameraDevice imageReader
         cameraManager captureSession backgroundThread backgroundHandler].
    rewrite Hreq, Hrep. cbv zeta.
    unfold bind at 1. rewrite closeCamera_cases. unfold ret.
    unfold set_captureSession, afterClose, releaseEffects, handlerAfterStop.
    cbn [fields platform nextObject trace cameraDevice imageReader
         cameraManager captureSession backgroundThread backgroundHandler
         threadAfterStop stopEffects].
    rewrite Hjoin, Hmgr. rewrite <- !app_assoc. reflexivity. }
  rewrite (effectsOf_normal Hrun), Hrun. repeat split; reflexivity.
Qed.

(** On the simulated platform. *)
Lemma session_releases_what_it_acquired_simulated :
  fields (worldOf (run (toPreviewing ++ [CallCloseCamera 3]) idle))
  = mkFields (Some simulatedManager) None None None None None.
Proof.
  destruct (@session_releases_what_it_acquired idle "cam-external-1" 1 2 3
              (Device 100) (Session 200) 1920 1080 simulatedManager
              eq_refl eq_refl eq_refl eq_refl eq_refl eq_refl eq_refl eq_refl)
    as (_ & _ & H).
  exact H.
Defined.

(** ** Descriptors *)

(** X13.  Every descriptor has the six keys id, type, isUSBCamera,
    resolutions, name and description, in that order.  Its type is one of
    "front", "back", "external" and "unknown"; [isUSBCamera] is set exactly
    for type "external"; the name is "USB Digital Microscope" for those and
    "Phone Camera (type)" for the others. *)
Theorem descriptor_shape (K : LensFacingConstants) (cameraId : string)
    (ch : CameraCharacteristics) :
  let d := describeCamera K cameraId ch in
  let cameraType := fst (classifyFacing K (LENS_FACING ch)) in
  let isUSBCamera := snd (classifyFacing K (LENS_FACING ch)) in
  List.map fst d
  = ["id"; "type"; "isUSBCamera"; "resolutions"; "name"; "description"] /\
  In cameraType ["front"; "back"; "external"; "unknown"] /\
  isUSBCamera = String.eqb cameraType "external" /\
  getKey "name" d
  = Some (VString (if isUSBCamera then "USB Digital Microscope"
                   else "Phone Camera (" ++ cameraType ++ ")")) /\
  getKey "description" d
  = Some (VString (if isUSBCamera then "External USB Camera Device"
                   else "Built-in " ++ cameraType ++ " camera")).
Proof.
  cbv zeta. unfold describeCamera.
  destruct (classifyFacing_range K (LENS_FACING ch)) as [H|[H|[H|H]]];
    rewrite H; simpl; intuition.
Qed.

(* ================================================================= *)
(** * The module seen from the host component *)

Lemma classifyFacing_usb (K : LensFacingConstants) (ch : CameraCharacteristics) :
  distinctLabels K ->
  snd (classifyFacing K (LENS_FACING ch)) = facesExternal K ch.
Proof.
  intros (Hfb & Hfe & Hbe). unfold classifyFacing, facesExternal.
  destruct (LENS_FACING ch) as [f|]; [|reflexivity].
  destruct (Z.eqb_spec f (LENS_FACING_FRONT K)) as [->|_].
  { simpl. symmetry. now apply Z.eqb_neq. }
  destruct (Z.eqb_spec f (LENS_FACING_BACK K)) as [->|_].
  { simpl. symmetry. now apply Z.eqb_neq. }
  now destruct (Z.eqb f (LENS_FACING_EXTERNAL K)).
Qed.

Lemma classifyFacing_back (K : LensFacingConstants) (ch : CameraCharacteristics) :
  distinctLabels K ->
  String.eqb (fst (classifyFacing K (LENS_FACING ch))) "back" = facesBack K ch.
Proof.
  intros (Hfb & Hfe & Hbe). unfold classifyFacing, facesBack.
  destruct (LENS_FACING ch) as [f|]; [|reflexivity].
  destruct (Z.eqb_spec f (LENS_FACING_FRONT K)) as [->|_].
  { simpl. symmetry. now apply Z.eqb_neq. }
  destruct (Z.eqb_spec f (LENS_FACING_BACK K)) as [->|_]; [reflexivity|].
  now destruct (Z.eqb f (LENS_FACING_EXTERNAL K)).
Qed.

(** Searching the descriptors is searching the readable cameras. *)
Lemma find_readableDescriptors (K : LensFacingConstants) (mgr : CameraManager)
    (chosen : Value -> bool) (wanted : CameraCharacteristics -> bool) :
  (forall cameraId ch, chosen (VMap (describeCamera K cameraId ch)) = wanted ch) ->
  forall cameraIds,
    find chosen (readableDescriptors K mgr cameraIds)
    = option_map (fun c => VMap (describeCamera K (fst c) (snd c)))
                 (firstReadable wanted mgr cameraIds).
Proof.
  intros Hchosen cameraIds.
  induction cameraIds as [|c rest IH]; simpl; [reflexivity|].
  destruct (getCameraCharacteristics mgr c) as [ch|msg|className msg];
    [|exact IH..].
  simpl. rewrite Hchosen. destruct (wanted ch); [reflexivity | exact IH].
Qed.

Lemma firstReadable_wanted (wanted : CameraCharacteristics -> bool)
    (mgr : CameraManager) (cameraIds : list string) cameraId ch :
  firstReadable wanted mgr cameraIds = Some (cameraId, ch) -> wanted ch = true.
Proof.
  induction cameraIds as [|c rest IH]; simpl; [discriminate|].
  destruct (getCameraCharacteristics mgr c) as [ch'|msg|className msg];
    [|exact IH..].
  destruct (wanted ch') eqn:E; [|exact IH]. intro H. now injection H as <- <-.
Qed.

(** X14.  [detectCameras] applied to what [getAvailableCameras] resolves
    with selects the first listed readable camera that reports no facing or
    [LENS_FACING_EXTERNAL], announces it to [onConnectionChange] under the
    name "USB Digital Microscope" and sets the status "usb_camera_found".
    Without such a camera it selects the first readable camera facing back
    ("phone_camera_only"); without that either it selects nothing and sets
    "no_cameras", also when front cameras are listed.  The listing resolves
    with these descriptors unless the query of a listed camera ends in an
    unchecked exception; then it is rejected with "Unexpected error: " and
    that exception's message.  When the listing is rejected because the
    camera service is unavailable, [detectCameras] sets "detection_error"
    and alerts with the rejection message. *)
Theorem detectCameras_prefers_external (w : World) (p : Promise)
    (onConnectionChange : bool) :
  let K := lensFacing (platform w) in
  (forall mgr cameraIds,
      distinctLabels K ->
      cameraManager (fields w) = Some mgr ->
      getCameraIdList mgr = Returns cameraIds ->
      let cameras := readableDescriptors K mgr cameraIds in
      option_map awaitedOf (hd_error (effectsOf (getAvailableCameras p) w))
      = Some (Some (match firstFault mgr cameraIds with
                    | None => Fulfilled cameras
                    | Some (_, msg) => Rejected ("Unexpected error: " ++ msg)
                    end)) /\
      detectCameras onConnectionChange (Fulfilled cameras)
      = SetCameraStatus "detecting" :: SetCameras cameras ::
        match firstReadable (facesExternal K) mgr cameraIds with
        | Some (cameraId, ch) =>
            [SetSelectedCamera (VMap (describeCamera K cameraId ch));
             SetCameraStatus "usb_camera_found"] ++
            (if onConnectionChange then
               [OnConnectionChange true
                  (Some (mkConnectionInfo
                           (Some (VString "USB Digital Microscope")) "USB"
                           (Some (VString cameraId))))]
             else [])
        | None =>
            match firstReadable (facesBack K) mgr cameraIds with
            | Some (cameraId, ch) =>
                [SetSelectedCamera (VMap (describeCamera K cameraId ch));
                 SetCameraStatus "phone_camera_only"]
            | None => [SetCameraStatus "no_cameras"]
            end
        end)
  /\
  (serviceUnavailable w = true ->
   exists message,
     option_map awaitedOf (hd_error (effectsOf (getAvailableCameras p) w))
     = Some (Some (Rejected message)) /\
     detectCameras onConnectionChange (Rejected message)
     = [SetCameraStatus "detecting"; SetCameraStatus "detection_error";
        AlertAlert "Detection Error" ("Failed to detect cameras: " ++ message)]).
Proof.
  intro K. split.
  - intros mgr cameraIds HK Hmgr Hids cameras.
    rewrite getAvailableCameras_effects. unfold listingSettlement.
    rewrite Hmgr, Hids.
    split; [now destruct (firstFault mgr cameraIds) as [[className msg]|]|].
    unfold detectCameras. fold K. fold cameras. unfold cameras.
    rewrite (@find_readableDescriptors K mgr
               (fun camera => truthy (property "isUSBCamera" camera))
               (facesExternal K)).
    2:{ intros c ch. simpl. rewrite describeCamera_isUSBCamera. simpl.
        now apply classifyFacing_usb. }
    rewrite (@find_readableDescriptors K mgr
               (fun camera => strictEquals (property "type" camera) "back")
               (facesBack K)).
    2:{ intros c ch. simpl. rewrite describeCamera_type. simpl.
        now apply classifyFacing_back. }
    destruct (firstReadable (facesExternal K) mgr cameraIds) as [[c ch]|] eqn:E.
    + simpl option_map. cbn [fst snd]. do 3 f_equal.
      apply firstReadable_wanted in E.
      rewrite <- (classifyFacing_usb ch HK) in E.
      simpl. rewrite describeCamera_id. unfold describeCamera. rewrite E.
      reflexivity.
    + simpl option_map.
      destruct (firstReadable (facesBack K) mgr cameraIds) as [[c ch]|];
        reflexivity.
  - intro Hun. rewrite getAvailableCameras_effects.
    unfold serviceUnavailable in Hun. unfold listingSettlement.
    destruct (cameraManager (fields w)) as [mgr|].
    + destruct (getCameraIdList mgr) as [ids|msg|className msg];
        [discriminate|eexists; split; reflexivity..].
    + eexists. split; reflexivity.
Qed.

(** On the simulated platform the microscope is chosen although the rear
    camera is listed first; without camera service the detection fails. *)
Lemma detectCameras_prefers_external_simulated :
  detectCameras true
    (Fulfilled (readableDescriptors androidLensFacing simulatedManager
                                    ["0"; "7"; "cam-external-1"]))
  = [SetCameraStatus "detecting";
     SetCameras (readableDescriptors androidLensFacing simulatedManager
                                     ["0"; "7"; "cam-external-1"]);
     SetSelectedCamera
       (VMap (describeCamera androidLensFacing "cam-external-1"
                (mkCharacteristics None (Some (mkStreamMap (Some [vga]))))));
     SetCameraStatus "usb_camera_found";
     OnConnectionChange true
       (Some (mkConnectionInfo (Some (VString "USB Digital Microscope")) "USB"
                               (Some (VString "cam-external-1"))))]
  /\
  exists message,
    detectCameras true (Rejected message)
    = [SetCameraStatus "detecting"; SetCameraStatus "detection_error";
       AlertAlert "Detection Error" ("Failed to detect cameras: " ++ message)].
Proof.
  split.
  - destruct (detectCameras_prefers_external idle 9 true) as [Hlisted _].
    assert (HK : distinctLabels androidLensFacing).
    { unfold distinctLabels; simpl; repeat split; discriminate. }
    destruct (Hlisted simulatedManager ["0"; "7"; "cam-external-1"]
                      HK eq_refl eq_refl) as [_ H].
    exact H.
  - destruct (detectCameras_prefers_external (newModule unservedPlatform) 9 true)
      as [_ Hrejected].
    destruct (Hrejected eq_refl) as (message & _ & H).
    exists message. exact H.
Defined.

Lemma handleCameraEvent_no_image (onConnectionChange : bool) (event : Value) :
  filter isOnImageCaptured (handleCameraEvent onConnectionChange event) = [].
Proof.
  unfold handleCameraEvent.
  destruct (strictEquals _ "opened"); [reflexivity|].
  destruct (strictEquals _ "disconnected");
    [now destruct onConnectionChange|].
  destruct (strictEquals _ "error"); [reflexivity|].
  destruct (strictEquals _ "preview_started"); reflexivity.
Qed.

Lemma prefix_nonempty (p s : string) :
  p <> EmptyString -> String.prefix p s = true -> String.eqb s "" = false.
Proof.
  destruct p as [|a p]; [congruence|]. intros _.
  destruct s; [discriminate | reflexivity].
Qed.

(** For a well-formed event the host calls [onImageCaptured] once if the
    event is an image event and not at all otherwise. *)
Lemma hostReceives_image (onConnectionChange : bool) (e : Effect) :
  wellFormedEvent e = true ->
  List.length (filter isOnImageCaptured (hostReceives onConnectionChange true e))
  = if isImageCaptured e then 1 else 0.
Proof.
  destruct e as [name params| | | | | | | | | | | | | | |]; try reflexivity.
  unfold wellFormedEvent, hostReceives, isImageCaptured, isEmit.
  destruct (String.eqb_spec name "USBCameraEvent") as [->|_].
  - intros _. now rewrite handleCameraEvent_no_image.
  - destruct (String.eqb name "USBCameraImageCaptured"); [|discriminate].
    unfold handleImageCaptured. cbn [property].
    destruct (getKey "imageData" params) as [[data| | | |]|]; try discriminate.
    destruct (getKey "source" params) as [[src| | | |]|]; try discriminate.
    intro H. apply andb_prop in H. destruct H as [Hpre _].
    cbn [truthy]. rewrite (@prefix_nonempty "data:image/jpeg;base64," data);
      [reflexivity | discriminate | exact Hpre].
Qed.

Lemma host_images (onConnectionChange : bool) (l : list Effect) :
  forallb wellFormedEvent l = true ->
  List.length (filter isOnImageCaptured
                      (flat_map (hostReceives onConnectionChange true) l))
  = count isImageCaptured l.
Proof.
  induction l as [|e l IH]; [reflexivity|]. simpl. intro H.
  apply andb_prop in H. destruct H as [He Hl].
  rewrite filter_app, length_app, IH, (hostReceives_image _ _ He) by assumption.
  unfold count. simpl. now destruct (isImageCaptured e).
Qed.

(** X15.  When the component was given an [onImageCaptured] prop, every
    frame that reaches the module's listener reaches that prop once: over a
    history that runs to its end, the component calls [onImageCaptured] as
    often as frames were delivered, each time from an event whose image data
    is a JPEG data URI. *)
Theorem frames_reach_host (w : World) (history : list Input)
    (onConnectionChange : bool) :
  completesNormally (run history w) = true ->
  List.length
    (filter isOnImageCaptured
            (flat_map (hostReceives onConnectionChange true)
                      (effectsOf (run history) w)))
  = framesDelivered history.
Proof.
  intro Hn.
  destruct (run_images history w) as (l1 & Ht1 & _ & Heq).
  destruct (addsOnly_run history step_wellFormed w) as (l2 & Ht2 & Hwf).
  rewrite (@effectsOf_of_trace _ _ _ _ Ht2).
  rewrite (host_images _ _ Hwf).
  rewrite <- (@effectsOf_of_trace _ _ _ _ Ht2),
    (@effectsOf_of_trace _ _ _ _ Ht1).
  now apply Heq.
Qed.

(** During the simulated preview: one capture, two frames, two calls. *)
Lemma frames_reach_host_two_frames :
  List.length
    (filter isOnImageCaptured
            (flat_map (hostReceives true true)
                      (effectsOf (run [CallCaptureImage 3;
                                       HwImageAvailable (Reader 1) (frame 1);
                                       HwImageAvailable (Reader 1) (frame 2)])
                                 previewing)))
  = 2.
Proof.
  apply (@frames_reach_host previewing
           [CallCaptureImage 3;
            HwImageAvailable (Reader 1) (frame 1);
            HwImageAvailable (Reader 1) (frame 2)] true eq_refl).
Defined.

(** X16.  Of the events the module sends, the component reacts to four and
    ignores the fifth: a well-formed [USBCameraEvent] causes no action at
    all exactly when its status is "closed".  The error event of the module
    makes it clear the preview flag and alert with the platform's error code
    in decimal; the disconnected event makes it clear the preview flag and
    report the lost connection; neither makes it call the module. *)
Theorem host_ignores_closed (onConnectionChange onImageCaptured : bool)
    (params : WritableMap) (cameraId : string) (error : Z) :
  wellFormedEvent (Emit "USBCameraEvent" params) = true ->
  (hostReceives onConnectionChange onImageCaptured (Emit "USBCameraEvent" params)
   = [] <-> getKey "status" params = Some (VString "closed")) /\
  hostReceives onConnectionChange onImageCaptured (errorEvent cameraId error)
  = [SetCameraStatus "camera_error"; SetPreviewActive false;
     AlertAlert "Camera Error"
                ("Camera error occurred (code: "
                 ++ NilZero.string_of_int (Z.to_int error) ++ ")")] /\
  hostReceives onConnectionChange onImageCaptured (disconnectedEvent cameraId)
  = [SetCameraStatus "disconnected"; SetPreviewActive false] ++
    (if onConnectionChange then [OnConnectionChange false None] else []).
Proof.
  intro Hwf. split; [|split; reflexivity].
  unfold wellFormedEvent in Hwf. unfold hostReceives, handleCameraEvent.
  cbn [String.eqb Ascii.eqb Bool.eqb andb] in *. cbn [property].
  destruct (getKey "status" params) as [[s| | | |]|]; try discriminate Hwf.
  unfold knownStatus in Hwf. cbn [existsb] in Hwf.
  unfold strictEquals.
  destruct (String.eqb_spec s "opened") as [E|_]; [subst s|].
  { split; intro H; discriminate H. }
  destruct (String.eqb_spec s "disconnected") as [E|_]; [subst s|].
  { split; intro H; [destruct onConnectionChange|]; discriminate H. }
  destruct (String.eqb_spec s "error") as [E|_]; [subst s|].
  { split; intro H; discriminate H. }
  destruct (String.eqb_spec s "preview_started") as [E|_]; [subst s|].
  { split; intro H; discriminate H. }
  destruct (String.eqb_spec s "closed") as [E|_]; [subst s|discriminate Hwf].
  split; reflexivity.
Qed.

(** The closed event of [closeCamera] and a camera error with code 4. *)
Lemma host_ignores_closed_simulated :
  hostReceives true true closedEvent = [] /\
  hostReceives true true (errorEvent "cam-external-1" 4)
  = [SetCameraStatus "camera_error"; SetPreviewActive false;
     AlertAlert "Camera Error" "Camera error occurred (code: 4)"].
Proof.
  destruct (@host_ignores_closed true true [("status", VString "closed")]
              "cam-external-1" 4 eq_refl) as (Hclosed & Herror & _).
  split; [now apply Hclosed | exact Herror].
Defined.

(* ================================================================= *)
(** * The camera manager *)

Lemma keepsService_same {A} (m : Java A) :
  (forall w, fields (worldOf (m w)) = fields w /\
             platform (worldOf (m w)) = platform w) ->
  keepsService m.
Proof. intros H w. destruct (H w) as [-> ->]. now split. Qed.

Lemma keepsService_ret {A} (a : A) : keepsService (ret a).
Proof. now apply keepsService_same. Qed.

Lemma keepsService_throw {A} (e : Throwable) : keepsService (@throw A e).
Proof. now apply keepsService_same. Qed.

Lemma keepsService_getFields : keepsService getFields.
Proof. now apply keepsService_same. Qed.

Lemma keepsService_getPlatform : keepsService getPlatform.
Proof. now apply keepsService_same. Qed.

Lemma keepsService_fresh : keepsService fresh.
Proof. now apply keepsService_same. Qed.

Lemma keepsService_perform (e : Effect) : keepsService (perform e).
Proof. now apply keepsService_same. Qed.

Lemma keepsService_deref {A} (o : option A) : keepsService (deref o).
Proof. destruct o; [apply keepsService_ret | apply keepsService_throw]. Qed.

Lemma keepsService_checked {A} (c : Checked A) : keepsService (checked c).
Proof. destruct c; [apply keepsService_ret | apply keepsService_throw ..]. Qed.

Lemma keepsService_setFields (f : USBCameraModule -> USBCameraModule) :
  (forall m, cameraManager (f m) = cameraManager m) ->
  keepsService (setFields f).
Proof. intros Hf w. simpl. now rewrite Hf. Qed.

Lemma keepsService_bind {A B} (m : Java A) (k : A -> Java B) :
  keepsService m -> (forall a, keepsService (k a)) -> keepsService (bind m k).
Proof.
  intros Hm Hk w. unfold bind. destruct (Hm w) as [Hf Hp].
  destruct (m w) as [a w1|e w1]; simpl in Hf, Hp.
  - destruct (Hk a w1) as [Hf' Hp']. now rewrite Hf', Hp', Hf, Hp.
  - now split.
Qed.

Lemma keepsService_try_catch {A} (body : Java A)
    (handler : Throwable -> option (Java A)) :
  keepsService body ->
  (forall e h, handler e = Some h -> keepsService h) ->
  keepsService (try_catch body handler).
Proof.
  intros Hb Hh w. unfold try_catch. destruct (Hb w) as [Hf Hp].
  destruct (body w) as [a w1|e w1]; simpl in Hf, Hp.
  - now split.
  - destruct (handler e) as [h|] eqn:Hhe.
    + destruct (Hh e h Hhe w1) as [Hf' Hp']. now rewrite Hf', Hp', Hf, Hp.
    + now split.
Qed.

Lemma keepsService_forEachCamera K mgr cameraIds cameras :
  keepsService (forEachCamera K mgr cameraIds cameras).
Proof.
  apply keepsService_same. intro w. now rewrite forEachCamera_world.
Qed.

(** Walk through a method body, checking each field assignment. *)
Ltac keeps_service :=
  repeat first
    [ apply keepsService_ret
    | apply keepsService_throw
    | apply keepsService_getFields
    | apply keepsService_getPlatform
    | apply keepsService_fresh
    | apply keepsService_perform
    | apply keepsService_deref
    | apply keepsService_checked
    | apply keepsService_forEachCamera
    | apply keepsService_setFields; reflexivity
    | apply keepsService_bind; [|intro]
    | apply keepsService_try_catch;
      [| let e := fresh "e" in
         let h := fresh "h" in
         let E := fresh "E" in
         intros e h E; destruct e; try discriminate E;
         injection E as <- ]
    | match goal with
      | |- keepsService (match ?x with _ => _ end) => destruct x
      | |- keepsService (if ?b then _ else _) => destruct b
      end ].

Lemma step_keepsService (i : Input) : keepsService (step i).
Proof.
  destruct i; unfold step.
  - unfold getAvailableCameras, resolve, rejectWith, reject. keeps_service.
  - unfold openCamera, startBackgroundThread, rejectWith, reject. keeps_service.
  - unfold startPreview, rejectWith, reject. keeps_service.
  - unfold captureImage, resolve, rejectWith, reject. keeps_service.
  - unfold closeCamera, stopBackgroundThread, join, resolve, sendEvent.
    keeps_service.
  - unfold onOpened, resolve, sendEvent. keeps_service.
  - unfold onDisconnected, sendEvent. keeps_service.
  - unfold onError, sendEvent. keeps_service.
  - unfold onConfigured, resolve, reject, sendEvent. keeps_service.
  - unfold onConfigureFailed, rejectWith, reject. keeps_service.
  - unfold onImageAvailable, sendEvent. keeps_service.
Qed.

Lemma run_keepsService (history : list Input) : keepsService (run history).
Proof.
  induction history as [|i rest IH]; simpl.
  - apply keepsService_ret.
  - apply keepsService_bind; [apply step_keepsService | intro; exact IH].
Qed.

(** X17.  No method and no callback assigns [cameraManager]: it keeps the
    value the constructor gave it through every history, whether the
    history ends normally or in an uncaught exception.  A camera listing
    after the history therefore settles exactly as one before it, whatever
    the session did in between. *)
Theorem listing_unaffected_by_session (history : list Input) (w : World)
    (p : Promise) :
  cameraManager (fields (worldOf (run history w))) = cameraManager (fields w) /\
  effectsOf (getAvailableCameras p) (worldOf (run history w))
  = effectsOf (getAvailableCameras p) w.
Proof.
  destruct (run_keepsService history w) as [Hmgr Hpf].
  split; [exact Hmgr|].
  rewrite !getAvailableCameras_effects. unfold listingSettlement.
  now rewrite Hmgr, Hpf.
Qed.
